(** * Review-moderation bot (src/main.py): model and verified properties

    The bot is a set of aiogram handlers over one process-wide dictionary
    [bot_data], a JSON file it is saved to, and the per-conversation FSM
    storage.  Handlers are embedded as computations in a small state and
    exception monad over a [World] that holds
      - the in-memory document [bot_data],
      - the contents of [bot_data.json] as last written by [save_data],
      - the FSM storage (state and scratch data per chat and user),
      - the log of Bot API requests issued so far,
      - the outcomes the platform gives to the next requests, and
      - the reading of the wall clock.
    Every [await] on the Bot API is a request that may raise; what was
    mutated in memory before the exception stays mutated, as in Python.

    Modelling conventions
      - a Python [str] is the list of its code points, so [len] is [length];
      - a Python [float] is an IEEE 754 binary64 value, with the arithmetic
        of the standard library's [SpecFloat] (round to nearest, ties to
        even); [datetime.now().timestamp()] reads the clock of the world;
      - user-visible texts are constructors of [Text], each documented with
        the literal it stands for; button labels are not tracked, a keyboard
        is the grid of payloads (or urls) its buttons carry;
      - callback payloads are the strings the bot's own keyboards emit,
        decoded into [Callback]; the iteration order of the [pending_reviews]
        dict (used only to order buttons) is not tracked;
      - the FSM context of a handler is the one aiogram keeps for the chat
        and the user of the update (its default strategy);
      - the command filters [CommandStart()] and [Command("admin")] belong
        to aiogram: the routing takes them as parameters;
      - [save_data] always succeeds. *)

From Stdlib Require Import ZArith Lia.
From Stdlib Require Import Floats.SpecFloat.
From stdpp Require Import base option list gmap strings pretty.

(** ** Python values *)

Definition pystr := list N.

Definition len (s : pystr) : nat := length s.

(** Truthiness of the values the handlers test with [if x:] / [if not x:]. *)
Definition truthy_str (s : option pystr) : bool :=
  match s with Some (_ :: _) => true | _ => false end.

Definition truthy_list {A} (l : list A) : bool :=
  match l with [] => false | _ => true end.

Definition truthy_int (x : option Z) : bool :=
  match x with Some v => negb (v =? 0)%Z | None => false end.

(** *** Floats

    A [float] is a binary64 value: a signed zero, an infinity, NaN, or
    [(-1)^s * m * 2^e]. *)
Definition float : Type := spec_float.

Definition prec : Z := 53.
Definition emax : Z := 1024.

(** [x - y] on two floats. *)
Definition float_sub (x y : float) : float := SFsub prec emax x y.

(** The conversion of an int operand of a mixed operation, [float(n)]:
    the nearest float; [None] stands for [OverflowError]. *)
Definition float_of_int (n : Z) : option float :=
  match binary_normalize prec emax n 0 false with
  | S754_infinity _ => None
  | x => Some x
  end.

(** [x < n] for a float and an int: the exact values are compared. *)
Definition float_lt_int (x : float) (n : Z) : bool :=
  match x with
  | S754_nan => false
  | S754_infinity s => s
  | S754_zero _ => (0 <? n)%Z
  | S754_finite s m e =>
      let v := if s then Zneg m else Zpos m in
      if (0 <=? e)%Z then (v * 2 ^ e <? n)%Z else (v <? n * 2 ^ (- e))%Z
  end.

(** [if x:] on a float: only the two zeros are falsy. *)
Definition truthy_float (x : float) : bool :=
  match x with S754_zero _ => false | _ => true end.

(** [int(x)] on a float: truncation towards zero; [None] stands for the
    [OverflowError] of an infinity and the [ValueError] of NaN. *)
Definition py_int (x : float) : option Z :=
  match x with
  | S754_zero _ => Some 0%Z
  | S754_finite s m e =>
      let magnitude := Z.shiftl (Zpos m) e in
      Some (if s then (- magnitude)%Z else magnitude)
  | S754_infinity _ | S754_nan => None
  end.

(** [str(n)] on an int. *)
Definition str (n : Z) : string := pretty n.

(** ** Telegram objects *)

Inductive ChatType := PRIVATE | GROUP | SUPERGROUP | CHANNEL.

Inductive ChatMemberStatus :=
  creator | administrator | member | restricted | left | kicked.

Record User := {
  user_id : Z;
  user_username : option pystr;
  user_first_name : pystr }.

Record Chat := {
  chat_id : Z;
  chat_type : ChatType;
  chat_title : option pystr }.

Record PhotoSize := { file_id : pystr }.

Record Message := {
  message_id : Z;
  message_chat : Chat;
  from_user : User;
  text : option pystr;
  caption : option pystr;
  photo : list PhotoSize }.

(** Payloads of the inline buttons, as the keyboards below emit them. *)
Inductive Callback :=
| main_menu                          (* "main_menu" *)
| admin_panel                        (* "admin_panel" *)
| leave_review                       (* "leave_review" *)
| admin_moderate_reviews             (* "admin_moderate_reviews" *)
| review_ (review_id : Z)            (* f"review_{review_id}" *)
| approve_ (review_id : Z)           (* f"approve_{review_id}" *)
| reject_ (review_id : Z)            (* f"reject_{review_id}" *)
| reject_final_noreason_ (review_id : Z)
| reject_final_reason_ (review_id : Z)
| admin_my_groups                    (* "admin_my_groups" *)
| group_ (group_id : Z)              (* f"group_{g['id']}" *)
| confirm_delete_ (group_id : Z)
| delete_final_ (group_id : Z)
| setmain_ (group_id : Z)
| admin_restrictions                 (* "admin_restrictions" *)
| restrictions_timeout               (* "restrictions_timeout" *)
| set_timeout_ (seconds : Z)         (* "set_timeout_86400", ... *)
| confirm_lock                       (* "confirm_lock" *)
| confirm_unlock                     (* "confirm_unlock" *)
| final_lock                         (* "final_заблокировать" *)
| final_unlock.                      (* "final_разблокировать" *)

Record CallbackQuery := {
  cb_from_user : User;
  cb_message : Message;
  cb_data : Callback }.

Record ChatMemberUpdated := {
  upd_chat : Chat;
  new_status : ChatMemberStatus }.

Inductive Update :=
| on_message (message : Message)
| on_callback_query (callback : CallbackQuery)
| on_my_chat_member (update : ChatMemberUpdated).

(** ** The stored document *)

Record Review := {
  r_user_id : Z;
  r_username : option pystr;
  r_first_name : pystr;
  r_text : pystr;
  r_photo_file_id : option pystr }.

Record Group := { g_id : Z; g_title : option pystr }.

Record Settings := {
  reviews_locked : bool;
  review_timeout_seconds : Z }.

Record BotData := {
  pending_reviews : gmap Z Review;
  groups : list Group;
  main_group_id : option Z;
  settings : Settings;
  user_last_review_time : gmap string float }.

(** The document [load_data] builds when the file is absent or corrupt. *)
Definition default_data : BotData := {|
  pending_reviews := ∅;
  groups := [];
  main_group_id := None;
  settings := {| reviews_locked := false; review_timeout_seconds := 0 |};
  user_last_review_time := ∅ |}.

Definition set_pending_reviews (p : gmap Z Review) (d : BotData) : BotData :=
  {| pending_reviews := p; groups := groups d;
     main_group_id := main_group_id d; settings := settings d;
     user_last_review_time := user_last_review_time d |}.

Definition set_groups (g : list Group) (d : BotData) : BotData :=
  {| pending_reviews := pending_reviews d; groups := g;
     main_group_id := main_group_id d; settings := settings d;
     user_last_review_time := user_last_review_time d |}.

Definition set_main_group_id (m : option Z) (d : BotData) : BotData :=
  {| pending_reviews := pending_reviews d; groups := groups d;
     main_group_id := m; settings := settings d;
     user_last_review_time := user_last_review_time d |}.

Definition set_settings (s : Settings) (d : BotData) : BotData :=
  {| pending_reviews := pending_reviews d; groups := groups d;
     main_group_id := main_group_id d; settings := s;
     user_last_review_time := user_last_review_time d |}.

Definition set_user_last_review_time (t : gmap string float) (d : BotData)
  : BotData :=
  {| pending_reviews := pending_reviews d; groups := groups d;
     main_group_id := main_group_id d; settings := settings d;
     user_last_review_time := t |}.

(** ** Conversation state (aiogram FSM, one context per chat and user) *)

Inductive State := waiting_for_review | waiting_for_rejection_reason.

Record Context := {
  cur_state : option State;
  review_id_to_reject : option Z }.

(** The idle context: no state, empty scratch data. *)
Definition idle : Context :=
  {| cur_state := None; review_id_to_reject := None |}.

Definition Key : Type := Z * Z.

(** ** Outgoing texts *)

Inductive TimeText :=
| t_disabled            (* "Отключен" *)
| t_one_day             (* "1 день" *)
| t_two_days            (* "2 дня" *)
| t_one_week            (* "1 неделя" *)
| t_days (d : Z)        (* f"{days} дн." *)
| t_hours (h : Z)       (* f"{hours} ч." *)
| t_minutes (m : Z).    (* f"{minutes} мин." *)

Inductive Exn :=
| TelegramBadRequest
| OtherException.       (* any exception that is not a TelegramBadRequest *)

Inductive Text :=
| txt_greeting            (* "Привет! ... отзыв о (Ваше название)." *)
| txt_no_access           (* "⛔ У вас нет доступа к этой команде." *)
| txt_admin_panel         (* "⚙️ Админ-панель" *)
| txt_greeting_menu       (* "Привет! ... отзыв о Т Е М К А." *)
| txt_reviews_paused      (* "⛔ Прием отзывов временно приостановлен администратором." *)
| txt_wait (t : TimeText) (* f"Вы сможете оставить следующий отзыв через {...}." *)
| txt_write_review        (* "Напишите ваш отзыв (от 10 до 50 символов). ..." *)
| txt_err_caption         (* "❌ Ошибка: к фотографии нужно добавить подпись с текстом отзыва." *)
| txt_err_length          (* "❌ Ошибка: текст отзыва (или подпись к фото) должен содержать от 10 до 50 символов." *)
| txt_new_review (username : option pystr)
                          (* f"🔔 Новый отзыв на модерацию от @{username}." *)
| txt_thanks              (* "✅ Спасибо! Твой отзыв отправлен на модерацию." *)
| txt_pending_title       (* "👀 Отзывы на модерации:" *)
| txt_nothing_pending     (* "✅ Нет отзывов для модерации." *)
| txt_already_processed   (* "Этот отзыв уже был обработан." *)
| txt_was_processed       (* "Отзыв уже был обработан." *)
| txt_review (first_name : pystr) (username : option pystr) (body : pystr)
                          (* f"<b>Отзыв от {first_name}</b> (@{username or 'N/A'}) ..." *)
| txt_no_main_group       (* "⚠️ Основная группа не выбрана!" *)
| txt_approved            (* "✅ Ваш отзыв одобрен!" *)
| txt_approved_published  (* "✅ Ваш отзыв одобрен и опубликован!" *)
| txt_forwarded           (* "✅ Отзыв переслан в группу!" *)
| txt_forward_error (e : Exn)
                          (* f"❌ Ошибка пересылки: {e}" *)
| txt_how_to_reject       (* "Как отклонить отзыв?" *)
| txt_already_handled     (* "Отзыв уже обработан." *)
| txt_rejected            (* "❌ К сожалению, ваш отзыв был отклонен." *)
| txt_review_rejected     (* "Отзыв отклонен." *)
| txt_write_reason        (* "Напишите причину отказа. Она будет отправлена пользователю." *)
| txt_rejected_because (reason : option pystr)
                          (* f"❌ К сожалению, ваш отзыв был отклонен.\n<b>Причина:</b> {reason}" *)
| txt_reason_sent         (* "✅ Причина отправлена, отзыв отклонен." *)
| txt_no_groups           (* "Бот пока не состоит ни в одной группе. ..." *)
| txt_my_groups           (* "👥 Мои группы:" *)
| txt_group_not_found     (* "Группа не найдена." *)
| txt_group (title : option pystr)
                          (* f"Группа: <b>{title}</b>" *)
| txt_confirm_leave       (* "Вы уверены, что хотите, чтобы бот покинул эту группу?" *)
| txt_left_group          (* "Бот покинул группу." *)
| txt_leave_error (e : Exn)
                          (* f"❌ Ошибка при выходе: {e}" *)
| txt_already_main        (* "Эта группа уже является основной." *)
| txt_main_changed        (* "⭐ Основная группа успешно изменена!" *)
| txt_restrictions        (* "⚙️ Настройка ограничений" *)
| txt_choose_timeout      (* "⏳ Выберите тайм-аут между отзывами для одного пользователя:" *)
| txt_timeout_set (t : TimeText)
                          (* f"Тайм-аут установлен: {humanize_time(seconds)}" *)
| txt_confirm_lock (locking : bool)
                          (* f"Вы уверены, что хотите {action} прием отзывов для всех?" *)
| txt_lock_changed (is_locking : bool)
                          (* f"Прием отзывов {'заблокирован' if is_locking else 'разблокирован'}!" *)
| txt_added_to_group (title : option pystr)
                          (* f"ℹ️ Бот был добавлен в группу: <b>{title}</b>" *)
| txt_removed_from_group (title : option pystr).
                          (* f"ℹ️ Бот был удален из группы: <b>{title}</b>" *)

Inductive Button :=
| press (data : Callback)
| url (link : pystr).

Definition Keyboard : Type := list (list Button).

(** Requests to the Bot API. *)
Inductive ApiCall :=
| send_message (to : Z) (body : Text)
| message_answer (to : Z) (body : Text) (reply_markup : option Keyboard)
| message_answer_photo (to : Z) (file : option pystr) (body : Text)
    (reply_markup : option Keyboard)
| message_edit_text (body : Text) (reply_markup : option Keyboard)
| message_delete
| callback_answer (body : option Text)
| forward_message (to from_chat : Z) (msg : Z)
| leave_chat (chat : Z)
| get_chat (chat : Z)
| export_chat_invite_link (chat : Z).

(** What the platform answers to a request: a result (only the invite link
    of [get_chat] / [export_chat_invite_link] is ever inspected) or an
    exception. *)
Inductive Outcome :=
| Returns (invite_link : option pystr)
| Raises (e : Exn).

(** ** The world and the handler monad *)

Record World := {
  bot_data : BotData;
  data_file : option BotData;
  storage : gmap Key Context;
  outbox : list ApiCall;
  replies : list Outcome;
  clock : float }.

Inductive Result (A : Type) :=
| Ok (a : A)
| Raised (e : Exn).
Arguments Ok {A} a.
Arguments Raised {A} e.

Definition M (A : Type) : Type := World → Result A * World.

Definition ret {A} (a : A) : M A := λ w, (Ok a, w).

Definition bind {A B} (m : M A) (k : A → M B) : M B := λ w,
  match m w with
  | (Ok a, w') => k a w'
  | (Raised e, w') => (Raised e, w')
  end.

Declare Scope handler_scope.
Delimit Scope handler_scope with handler.
Bind Scope handler_scope with M.
Notation "x <- m ;; k" := (bind m (λ x, k))
  (at level 100, m at next level, right associativity) : handler_scope.
Notation "m ;; k" := (bind m (λ _, k))
  (at level 100, right associativity) : handler_scope.
Open Scope handler_scope.

(** [try: body / except Exception as e: handler e] *)
Definition try_except {A} (body : M A) (handler : Exn → M A) : M A := λ w,
  match body w with
  | (Ok a, w') => (Ok a, w')
  | (Raised e, w') => handler e w'
  end.

(** [with suppress(TelegramBadRequest): body] *)
Definition suppress_TelegramBadRequest (body : M unit) : M unit := λ w,
  match body w with
  | (Raised TelegramBadRequest, w') => (Ok tt, w')
  | r => r
  end.

Definition get_bot_data : M BotData := λ w, (Ok (bot_data w), w).

Definition modify_bot_data (f : BotData → BotData) : M unit := λ w,
  (Ok tt, {| bot_data := f (bot_data w); data_file := data_file w;
             storage := storage w; outbox := outbox w;
             replies := replies w; clock := clock w |}).

(** [save_data(bot_data)]: the whole document overwrites the file. *)
Definition save_data : M unit := λ w,
  (Ok tt, {| bot_data := bot_data w; data_file := Some (bot_data w);
             storage := storage w; outbox := outbox w;
             replies := replies w; clock := clock w |}).

Definition modify_storage (f : gmap Key Context → gmap Key Context)
  : M unit := λ w,
  (Ok tt, {| bot_data := bot_data w; data_file := data_file w;
             storage := f (storage w); outbox := outbox w;
             replies := replies w; clock := clock w |}).

(** [datetime.now().timestamp()] *)
Definition datetime_now : M float := λ w, (Ok (clock w), w).

(** The value of an operation that raises where it has no result.  The
    exceptions concerned ([OverflowError], [ValueError]) are none of them
    a [TelegramBadRequest]. *)
Definition or_raise {A} (x : option A) : M A := λ w,
  match x with
  | Some a => (Ok a, w)
  | None => (Raised OtherException, w)
  end.

(** One request: it is logged, and the platform's next outcome decides
    whether it returns or raises (it returns when no outcome is left). *)
Definition request (c : ApiCall) : M (option pystr) := λ w,
  let sent := outbox w ++ [c] in
  match replies w with
  | [] =>
      (Ok None, {| bot_data := bot_data w; data_file := data_file w;
                   storage := storage w; outbox := sent;
                   replies := []; clock := clock w |})
  | Returns v :: rest =>
      (Ok v, {| bot_data := bot_data w; data_file := data_file w;
                storage := storage w; outbox := sent;
                replies := rest; clock := clock w |})
  | Raises e :: rest =>
      (Raised e, {| bot_data := bot_data w; data_file := data_file w;
                    storage := storage w; outbox := sent;
                    replies := rest; clock := clock w |})
  end.

Definition context_of (k : Key) (w : World) : Context :=
  default idle (storage w !! k).

(** [state.clear()], [state.set_state(s)], [state.update_data(...)],
    [state.get_data()] on the context of key [k]. *)
Definition state_clear (k : Key) : M unit :=
  modify_storage (delete k).

Definition state_set_state (k : Key) (s : State) : M unit :=
  modify_storage (λ st,
    <[k := {| cur_state := Some s;
              review_id_to_reject :=
                review_id_to_reject (default idle (st !! k)) |}]> st).

Definition state_update_data (k : Key) (review_id : Z) : M unit :=
  modify_storage (λ st,
    <[k := {| cur_state := cur_state (default idle (st !! k));
              review_id_to_reject := Some review_id |}]> st).

Definition state_get_data (k : Key) : M Context := λ w,
  (Ok (context_of k w), w).

Definition api (c : ApiCall) : M unit := _ <- request c ;; ret tt.

(** [bot_data['pending_reviews'].pop(review_id, None)].  A stored review
    is a dict with five keys, hence truthy: [if not review] tests for
    [None] only. *)
Definition pending_pop (review_id : Z) : M (option Review) :=
  d <- get_bot_data ;;
  modify_bot_data
    (λ d, set_pending_reviews (delete review_id (pending_reviews d)) d) ;;
  ret (pending_reviews d !! review_id).

Definition truthy_dict {A} (m : gmap Z A) : bool :=
  truthy_list (map_to_list m).

(** ** Pure helpers of the source *)

Definition humanize_time (seconds : Z) : TimeText :=
  if (seconds =? 0)%Z then t_disabled
  else if (seconds =? 86400)%Z then t_one_day
  else if (seconds =? 172800)%Z then t_two_days
  else if (seconds =? 604800)%Z then t_one_week
  else
    let days := (seconds `div` 86400)%Z in
    let hours := ((seconds `mod` 86400) `div` 3600)%Z in
    let minutes := ((seconds `mod` 3600) `div` 60)%Z in
    if (0 <? days)%Z then t_days days
    else if (0 <? hours)%Z then t_hours hours
    else t_minutes minutes.

Definition get_main_menu_keyboard : Keyboard := [[press leave_review]].

(** The count of pending reviews only changes the first button's label. *)
Definition get_admin_panel_keyboard : Keyboard :=
  [[press admin_moderate_reviews];
   [press admin_my_groups];
   [press admin_restrictions]].

Definition get_back_keyboard (back_to : Callback) : Keyboard :=
  [[press back_to]].

Definition message_key (message : Message) : Key :=
  (chat_id (message_chat message), user_id (from_user message)).

Definition callback_key (callback : CallbackQuery) : Key :=
  (chat_id (message_chat (cb_message callback)),
   user_id (cb_from_user callback)).

(** [message.answer(...)]: a new message in the chat of [message]. *)
Definition answer (message : Message) (body : Text)
    (reply_markup : option Keyboard) : M unit :=
  api (message_answer (chat_id (message_chat message)) body reply_markup).

(** ** Handlers *)

Section Handlers.

Variable ADMIN_ID : Z.
Variables CommandStart Command_admin : Message → bool.

Definition cmd_start (message : Message) (state : Key) : M unit :=
  state_clear state ;;
  answer message txt_greeting (Some get_main_menu_keyboard).

Definition cmd_admin (message : Message) (state : Key) : M unit :=
  if negb (user_id (from_user message) =? ADMIN_ID)%Z
  then answer message txt_no_access None
  else
    state_clear state ;;
    answer message txt_admin_panel (Some get_admin_panel_keyboard).

Definition back_to_main_menu (callback : CallbackQuery) (state : Key)
  : M unit :=
  state_clear state ;;
  api (message_edit_text txt_greeting_menu (Some get_main_menu_keyboard)).

Definition back_to_admin_panel (callback : CallbackQuery) (state : Key)
  : M unit :=
  state_clear state ;;
  api (message_edit_text txt_admin_panel (Some get_admin_panel_keyboard)).

Definition start_review (callback : CallbackQuery) (state : Key) : M unit :=
  let uid := user_id (cb_from_user callback) in
  d <- get_bot_data ;;
  if reviews_locked (settings d)
  then api (callback_answer (Some txt_reviews_paused))
  else
    let timeout_seconds := review_timeout_seconds (settings d) in
    (* the end of the handler, reached when no branch above it returns *)
    let open_dialogue :=
      api (message_edit_text txt_write_review
             (Some (get_back_keyboard main_menu))) ;;
      state_set_state state waiting_for_review in
    if negb (uid =? ADMIN_ID)%Z && (0 <? timeout_seconds)%Z
    then
      match user_last_review_time d !! str uid with
      | Some last_review_timestamp =>
          if truthy_float last_review_timestamp
          then
            now <- datetime_now ;;
            let elapsed := float_sub now last_review_timestamp in
            if float_lt_int elapsed timeout_seconds
            then
              timeout_float <- or_raise (float_of_int timeout_seconds) ;;
              remaining_seconds <-
                or_raise (py_int (float_sub timeout_float elapsed)) ;;
              api (callback_answer
                     (Some (txt_wait (humanize_time remaining_seconds))))
            else open_dialogue
          else open_dialogue
      | None => open_dialogue
      end
    else open_dialogue.

(** [text = message.caption if message.photo else message.text] *)
Definition submitted_text (message : Message) : option pystr :=
  if truthy_list (photo message) then caption message else text message.

(** The record [process_review] stores for an accepted [message]. *)
Definition review_of (message : Message) (body : pystr) : Review :=
  {| r_user_id := user_id (from_user message);
     r_username := user_username (from_user message);
     r_first_name := user_first_name (from_user message);
     r_text := body;
     r_photo_file_id := file_id <$> last (photo message) |}.

Definition process_review (message : Message) (state : Key) : M unit :=
  match submitted_text message with
  | None | Some [] => answer message txt_err_caption None
  | Some body =>
      if negb ((10 <=? len body)%nat && (len body <=? 50)%nat)
      then answer message txt_err_length None
      else
        let review_id := message_id message in
        modify_bot_data (λ d,
          set_pending_reviews
            (<[review_id := review_of message body]> (pending_reviews d))
            d) ;;
        now <- datetime_now ;;
        modify_bot_data (λ d,
          set_user_last_review_time
            (<[str (user_id (from_user message)) := now]>
               (user_last_review_time d)) d) ;;
        save_data ;;
        state_clear state ;;
        api (send_message ADMIN_ID
               (txt_new_review (user_username (from_user message)))) ;;
        answer message txt_thanks None ;;
        cmd_start message state
  end.

Definition show_pending_reviews (callback : CallbackQuery) (state : Key)
  : M unit :=
  state_clear state ;;
  (if truthy_list (photo (cb_message callback))
   then api message_delete ;;
        answer (cb_message callback) txt_pending_title None
   else ret tt) ;;
  d <- get_bot_data ;;
  if negb (truthy_dict (pending_reviews d))
  then
    api (callback_answer (Some txt_nothing_pending)) ;;
    api (message_edit_text txt_admin_panel (Some get_admin_panel_keyboard))
  else
    let buttons :=
      (λ kv : Z * Review, [press (review_ kv.1)])
        <$> map_to_list (pending_reviews d) in
    api (message_edit_text txt_pending_title
           (Some (buttons ++ [[press admin_panel]]))).

Definition moderate_review (review_id : Z) (callback : CallbackQuery)
    (state : Key) : M unit :=
  state_clear state ;;
  d <- get_bot_data ;;
  match pending_reviews d !! review_id with
  | None =>
      api (callback_answer (Some txt_already_processed)) ;;
      show_pending_reviews callback state
  | Some review =>
      let caption_text :=
        txt_review (r_first_name review) (r_username review)
          (r_text review) in
      let keyboard :=
        [[press (approve_ review_id); press (reject_ review_id)];
         [press admin_moderate_reviews]] in
      (if truthy_str (r_photo_file_id review)
       then api message_delete ;;
            api (message_answer_photo
                   (chat_id (message_chat (cb_message callback)))
                   (r_photo_file_id review) caption_text (Some keyboard))
       else api (message_edit_text caption_text (Some keyboard))) ;;
      api (callback_answer None)
  end.

Definition approve_review (review_id : Z) (callback : CallbackQuery)
    (state : Key) : M unit :=
  state_clear state ;;
  popped <- pending_pop review_id ;;
  match popped with
  | None => api (callback_answer (Some txt_already_processed))
  | Some review =>
      d <- get_bot_data ;;
      (if negb (truthy_int (main_group_id d))
       then
         api (callback_answer (Some txt_no_main_group)) ;;
         api (send_message (r_user_id review) txt_approved)
       else
         try_except
           (api (forward_message (default 0%Z (main_group_id d))
                   (r_user_id review) review_id) ;;
            api (send_message (r_user_id review) txt_approved_published) ;;
            api (callback_answer (Some txt_forwarded)))
           (λ e,
            api (callback_answer (Some (txt_forward_error e))) ;;
            modify_bot_data (λ d,
              set_pending_reviews
                (<[review_id := review]> (pending_reviews d)) d))) ;;
      save_data ;;
      show_pending_reviews callback state
  end.

Definition reject_review_confirm (review_id : Z) (callback : CallbackQuery)
    (state : Key) : M unit :=
  state_clear state ;;
  let buttons :=
    [[press (reject_final_noreason_ review_id)];
     [press (reject_final_reason_ review_id)];
     [press (review_ review_id)]] in
  if truthy_list (photo (cb_message callback))
  then api message_delete ;;
       answer (cb_message callback) txt_how_to_reject (Some buttons)
  else api (message_edit_text txt_how_to_reject (Some buttons)).

Definition reject_final_noreason (review_id : Z) (callback : CallbackQuery)
    (state : Key) : M unit :=
  state_clear state ;;
  popped <- pending_pop review_id ;;
  match popped with
  | None => api (callback_answer (Some txt_already_handled))
  | Some review =>
      suppress_TelegramBadRequest
        (api (send_message (r_user_id review) txt_rejected)) ;;
      save_data ;;
      api (callback_answer (Some txt_review_rejected)) ;;
      show_pending_reviews callback state
  end.

Definition reject_final_reason_prompt (review_id : Z)
    (callback : CallbackQuery) (state : Key) : M unit :=
  state_set_state state waiting_for_rejection_reason ;;
  state_update_data state review_id ;;
  api (message_edit_text txt_write_reason
         (Some [[press (review_ review_id)]])).

Definition process_rejection_reason (message : Message) (state : Key)
  : M unit :=
  data <- state_get_data state ;;
  let review_id := review_id_to_reject data in
  let reason := text message in
  popped <- match review_id with
            | Some i => pending_pop i
            | None => ret None
            end ;;
  state_clear state ;;
  match popped with
  | None => answer message txt_was_processed None
  | Some review =>
      suppress_TelegramBadRequest
        (api (send_message (r_user_id review)
                (txt_rejected_because reason))) ;;
      save_data ;;
      answer message txt_reason_sent None ;;
      cmd_admin message state
  end.

Definition show_my_groups (callback : CallbackQuery) : M unit :=
  d <- get_bot_data ;;
  if negb (truthy_list (groups d))
  then api (message_edit_text txt_no_groups
              (Some (get_back_keyboard admin_panel)))
  else
    let buttons := (λ g, [press (group_ (g_id g))]) <$> groups d in
    api (message_edit_text txt_my_groups
           (Some (buttons ++ [[press admin_panel]]))).

Definition group_options (group_id : Z) (callback : CallbackQuery)
  : M unit :=
  d <- get_bot_data ;;
  match List.find (λ g, (g_id g =? group_id)%Z) (groups d) with
  | None => api (callback_answer (Some txt_group_not_found))
  | Some group =>
      invite_link <-
        try_except
          (link <- request (get_chat group_id) ;;
           if truthy_str link then ret link
           else request (export_chat_invite_link group_id))
          (λ _, ret None) ;;
      let buttons :=
        [ match invite_link with
          | Some (c :: link) => [url (c :: link)]
          | _ => []
          end;
          [press (setmain_ group_id)];
          [press (confirm_delete_ group_id)];
          [press admin_my_groups] ] in
      api (message_edit_text (txt_group (g_title group)) (Some buttons))
  end.

Definition confirm_delete_group (group_id : Z) (callback : CallbackQuery)
  : M unit :=
  api (message_edit_text txt_confirm_leave
         (Some [[press (delete_final_ group_id); press (group_ group_id)]])).

Definition delete_and_leave_group (group_id : Z) (callback : CallbackQuery)
  : M unit :=
  try_except
    (api (leave_chat group_id) ;;
     api (callback_answer (Some txt_left_group)))
    (λ e, api (callback_answer (Some (txt_leave_error e)))) ;;
  show_my_groups callback.

Definition set_main_group (group_id : Z) (callback : CallbackQuery)
  : M unit :=
  d <- get_bot_data ;;
  if bool_decide (main_group_id d = Some group_id)
  then api (callback_answer (Some txt_already_main))
  else
    modify_bot_data (set_main_group_id (Some group_id)) ;;
    save_data ;;
    api (callback_answer (Some txt_main_changed)) ;;
    show_my_groups callback.

Definition admin_restrictions_menu (callback : CallbackQuery) : M unit :=
  d <- get_bot_data ;;
  let lock_callback :=
    if reviews_locked (settings d) then confirm_unlock else confirm_lock in
  api (message_edit_text txt_restrictions
         (Some [[press restrictions_timeout];
                [press lock_callback];
                [press admin_panel]])).

Definition restrictions_timeout_menu (callback : CallbackQuery) : M unit :=
  api (message_edit_text txt_choose_timeout
         (Some [[press (set_timeout_ 86400); press (set_timeout_ 172800)];
                [press (set_timeout_ 604800); press (set_timeout_ 0)];
                [press admin_restrictions]])).

Definition set_timeout (seconds : Z) (callback : CallbackQuery) : M unit :=
  modify_bot_data (λ d,
    set_settings {| reviews_locked := reviews_locked (settings d);
                    review_timeout_seconds := seconds |} d) ;;
  save_data ;;
  api (callback_answer (Some (txt_timeout_set (humanize_time seconds)))) ;;
  admin_restrictions_menu callback.

Definition confirm_lock_unlock (locking : bool) (callback : CallbackQuery)
  : M unit :=
  api (message_edit_text (txt_confirm_lock locking)
         (Some [[press (if locking then final_lock else final_unlock);
                 press admin_restrictions]])).

Definition final_lock_unlock (is_locking : bool) (callback : CallbackQuery)
  : M unit :=
  modify_bot_data (λ d,
    set_settings
      {| reviews_locked := is_locking;
         review_timeout_seconds := review_timeout_seconds (settings d) |}
      d) ;;
  save_data ;;
  api (callback_answer (Some (txt_lock_changed is_locking))) ;;
  admin_restrictions_menu callback.

Definition is_group_chat (t : ChatType) : bool :=
  match t with GROUP | SUPERGROUP => true | _ => false end.

Definition on_chat_member_updated (update : ChatMemberUpdated) : M unit :=
  if negb (is_group_chat (chat_type (upd_chat update))) then ret tt
  else
    let chat_id := chat_id (upd_chat update) in
    let title := chat_title (upd_chat update) in
    d <- get_bot_data ;;
    let is_in_list := existsb (λ g, (g_id g =? chat_id)%Z) (groups d) in
    (match new_status update with
     | administrator | member =>
         if negb is_in_list
         then
           modify_bot_data (λ d,
             set_groups
               (groups d ++ [{| g_id := chat_id; g_title := title |}]) d) ;;
           api (send_message ADMIN_ID (txt_added_to_group title))
         else ret tt
     | left | kicked =>
         if is_in_list
         then
           modify_bot_data (λ d,
             set_groups
               (List.filter (λ g, negb (g_id g =? chat_id)%Z) (groups d))
               d) ;;
           modify_bot_data (λ d,
             if bool_decide (main_group_id d = Some chat_id)
             then set_main_group_id None d else d) ;;
           api (send_message ADMIN_ID (txt_removed_from_group title))
         else ret tt
     | creator | restricted => ret tt
     end) ;;
    save_data.

(** ** Routing

    Handlers are tried in the order of registration.  [CommandStart()] and
    [Command("admin")] are filters of aiogram, whose code is not part of
    this repository: they are parameters here, and everything below holds
    for every pair of filters. *)

Definition route_message (message : Message) : M unit :=
  let state := message_key message in
  if CommandStart message then cmd_start message state
  else if Command_admin message then cmd_admin message state
  else
    ctx <- state_get_data state ;;
    match cur_state ctx with
    | Some waiting_for_review =>
        if truthy_str (text message) || truthy_list (photo message)
        then process_review message state else ret tt
    | Some waiting_for_rejection_reason =>
        if truthy_str (text message)
        then process_rejection_reason message state else ret tt
    | None => ret tt
    end.

Definition route_callback (callback : CallbackQuery) : M unit :=
  let state := callback_key callback in
  match cb_data callback with
  | main_menu => back_to_main_menu callback state
  | admin_panel => back_to_admin_panel callback state
  | leave_review => start_review callback state
  | admin_moderate_reviews => show_pending_reviews callback state
  | review_ i => moderate_review i callback state
  | approve_ i => approve_review i callback state
  | reject_ i =>
      (* F.data.split("_")[1].isdigit() *)
      if (0 <=? i)%Z then reject_review_confirm i callback state else ret tt
  | reject_final_noreason_ i => reject_final_noreason i callback state
  | reject_final_reason_ i => reject_final_reason_prompt i callback state
  | admin_my_groups => show_my_groups callback
  | group_ g => group_options g callback
  | confirm_delete_ g => confirm_delete_group g callback
  | delete_final_ g => delete_and_leave_group g callback
  | setmain_ g => set_main_group g callback
  | admin_restrictions => admin_restrictions_menu callback
  | restrictions_timeout => restrictions_timeout_menu callback
  | set_timeout_ s => set_timeout s callback
  | confirm_lock => confirm_lock_unlock true callback
  | confirm_unlock => confirm_lock_unlock false callback
  | final_lock => final_lock_unlock true callback
  | final_unlock => final_lock_unlock false callback
  end.

Definition dispatch (u : Update) : M unit :=
  match u with
  | on_message message => route_message message
  | on_callback_query callback => route_callback callback
  | on_my_chat_member update => on_chat_member_updated update
  end.

(** One delivery: the platform hands over an update at some clock reading
    and will answer the handler's requests with the given outcomes. *)
Record Delivery := {
  at_time : float;
  outcomes : list Outcome;
  update_of : Update }.

Definition deliver (dl : Delivery) (w : World) : World :=
  {| bot_data := bot_data w; data_file := data_file w;
     storage := storage w; outbox := outbox w;
     replies := outcomes dl; clock := at_time dl |}.

Definition step (w : World) (dl : Delivery) : World :=
  (dispatch (update_of dl) (deliver dl w)).2.

Definition run (w : World) (dls : list Delivery) : World :=
  fold_left step dls w.

End Handlers.

(** * Specification vocabulary

    Relations between the world before and after a computation, predicates
    on updates and worlds, and the concrete scenarios that the statements
    below are written with. *)

(** [stable R m]: running [m] from any world leads to an [R]-related world,
    whether [m] returns or raises. *)
Definition stable {A} (R : relation World) (m : M A) : Prop :=
  ∀ w, R w (m w).2.

(** Relations that do not look at the request log or the pending outcomes. *)
Class IOBlind (R : relation World) : Prop :=
  io_blind : ∀ w ob rp,
    R w {| bot_data := bot_data w; data_file := data_file w;
           storage := storage w; outbox := ob; replies := rp;
           clock := clock w |}.

(** The observation [g] has the same value afterwards. *)
Definition same {X} (g : World → X) : relation World :=
  λ w w', g w' = g w.

(** The part [h] of the document has the same value afterwards. *)
Definition same_data {X} (h : BotData → X) : relation World :=
  same (λ w, h (bot_data w)).

(** No conversation enters [waiting_for_review]. *)
Definition no_new_waiting : relation World := λ w w',
  ∀ k, cur_state (context_of k w') = Some waiting_for_review →
       cur_state (context_of k w) = Some waiting_for_review.

(** Relations that do not look at the document (in memory or on disk). *)
Class DocBlind (R : relation World) : Prop :=
  doc_blind : ∀ w d f,
    R w {| bot_data := d; data_file := f; storage := storage w;
           outbox := outbox w; replies := replies w; clock := clock w |}.

(** Relations that do not look at the FSM storage. *)
Class StoreBlind (R : relation World) : Prop :=
  store_blind : ∀ w s,
    R w {| bot_data := bot_data w; data_file := data_file w; storage := s;
           outbox := outbox w; replies := replies w; clock := clock w |}.

(** The world with one component replaced. *)
Definition with_bot_data (d : BotData) (w : World) : World :=
  {| bot_data := d; data_file := data_file w; storage := storage w;
     outbox := outbox w; replies := replies w; clock := clock w |}.

Definition with_storage (s : gmap Key Context) (w : World) : World :=
  {| bot_data := bot_data w; data_file := data_file w; storage := s;
     outbox := outbox w; replies := replies w; clock := clock w |}.

Definition with_data_file (w : World) : World :=
  {| bot_data := bot_data w; data_file := Some (bot_data w);
     storage := storage w; outbox := outbox w; replies := replies w;
     clock := clock w |}.

(** A chat is tracked when the registry has an entry with its id. *)
Definition tracked (chat : Z) (d : BotData) : Prop :=
  ∃ g, g ∈ groups d ∧ g_id g = chat.

(** The request log only grows. *)
Definition sent_more : relation World := λ w w',
  ∃ more, outbox w' = outbox w ++ more.

(** The storage is as before, or as before with the context of [k]
    cleared. *)
Definition cleared_or_same (k : Key) : relation World := λ w w',
  storage w' = storage w ∨ storage w' = delete k (storage w).

(** The submission was turned down: nothing stored anywhere changed and
    the only request is the error reply in the submitter's chat. *)
Definition turned_down (message : Message) (w w' : World) : Prop :=
  bot_data w' = bot_data w ∧ data_file w' = data_file w
  ∧ storage w' = storage w
  ∧ ∃ err, err ∈ [txt_err_caption; txt_err_length]
      ∧ outbox w' =
          outbox w ++
            [message_answer (chat_id (message_chat message)) err None].

(** What an accepted submission has written by the time the first request
    goes out. *)
Definition stored (message : Message) (body : pystr) (k : Key) (w : World)
  : World :=
  with_storage (delete k (storage w))
    (with_data_file
       (with_bot_data
          (set_user_last_review_time
             (<[str (user_id (from_user message)) := clock w]>
                (user_last_review_time (bot_data w)))
             (set_pending_reviews
                (<[message_id message := review_of message body]>
                   (pending_reviews (bot_data w)))
                (bot_data w)))
          w)).

(** The next request, if any outcome is scripted for it, does not raise. *)
Definition next_returns (outs : list Outcome) : Prop :=
  match outs with
  | Raises _ :: _ => False
  | _ => True
  end.

(** The global submission lock is engaged. *)
Definition locked (w : World) : Prop :=
  reviews_locked (settings (bot_data w)) = true.

(** A lock that is engaged stays engaged. *)
Definition stays_locked : relation World := λ w w', locked w → locked w'.

(** The update is not the confirmed unlock. *)
Definition not_unlock (u : Update) : Prop :=
  ∀ callback, u = on_callback_query callback → cb_data callback ≠ final_unlock.

(** The update is not a confirmed lock or unlock. *)
Definition not_final (u : Update) : Prop :=
  ∀ callback, u = on_callback_query callback →
    cb_data callback ≠ final_lock ∧ cb_data callback ≠ final_unlock.

(** The update is not the choice of a cooldown preset. *)
Definition not_set_timeout (u : Update) : Prop :=
  ∀ callback s, u = on_callback_query callback →
    cb_data callback ≠ set_timeout_ s.

(** Payloads whose handler starts with [state.clear()]. *)
Definition resets_on_entry (c : Callback) : bool :=
  match c with
  | main_menu | admin_panel | admin_moderate_reviews
  | review_ _ | approve_ _ | reject_final_noreason_ _ => true
  | reject_ i => (0 <=? i)%Z
  | _ => false
  end.

(** Payloads whose handler has no access to the conversation state (the
    group and restriction menus), or that reach no handler. *)
Definition leaves_state_alone (c : Callback) : bool :=
  match c with
  | admin_my_groups | group_ _ | confirm_delete_ _ | delete_final_ _
  | setmain_ _ | admin_restrictions | restrictions_timeout | set_timeout_ _
  | confirm_lock | confirm_unlock | final_lock | final_unlock => true
  | reject_ i => (i <? 0)%Z
  | _ => false
  end.

(** What the refusal of [start_review] says to a user whose last accepted
    submission is stamped [last]: the lock notice, or the remaining wait
    [int(timeout_seconds - elapsed)] in words; nothing where that number
    has no value. *)
Definition refusal_notice (w : World) (last : float) : option Text :=
  if reviews_locked (settings (bot_data w)) then Some txt_reviews_paused
  else
    timeout_float ← float_of_int (review_timeout_seconds (settings (bot_data w)));
    remaining_seconds ←
      py_int (float_sub timeout_float (float_sub (clock w) last));
    Some (txt_wait (humanize_time remaining_seconds)).

(** ** Concrete scenarios *)

Module Examples.

Definition ADMIN : Z := 1000.

Definition code_points (s : string) : pystr :=
  (λ a, Ascii.N_of_ascii a) <$> String.list_ascii_of_string s.

(** The command filters of the scenarios, for a bot whose username is
    [bot]: the first word of the text (of the caption, when there is no
    text) is [/name] or [/name@bot]. *)
Definition is_space (c : N) : bool :=
  (c =? 32)%N || ((9 <=? c)%N && (c <=? 13)%N).

Fixpoint word (s : pystr) : pystr :=
  match s with
  | [] => []
  | c :: s' => if is_space c then [] else c :: word s'
  end.

Fixpoint first_word (s : pystr) : pystr :=
  match s with
  | [] => []
  | c :: s' => if is_space c then first_word s' else c :: word s'
  end.

Definition is_command (name : string) (message : Message) : bool :=
  let full_command :=
    first_word
      (default []
         (if truthy_str (text message) then text message
          else caption message)) in
  bool_decide (full_command = code_points ("/" +:+ name))
  || bool_decide (full_command = code_points ("/" +:+ name +:+ "@bot")).

Definition CommandStart : Message → bool := is_command "start".

Definition Command_admin : Message → bool := is_command "admin".

(** The process right after start, with no [bot_data.json]. *)
Definition initial : World :=
  {| bot_data := default_data; data_file := None; storage := ∅;
     outbox := []; replies := []; clock := S754_zero false |}.

Definition private_chat (uid : Z) : Chat :=
  {| chat_id := uid; chat_type := PRIVATE; chat_title := None |}.

Definition supergroup : Chat :=
  {| chat_id := -1001; chat_type := SUPERGROUP;
     chat_title := Some (code_points "Reviews") |}.

Definition person (uid : Z) (name : string) : User :=
  {| user_id := uid; user_username := Some (code_points name);
     user_first_name := code_points name |}.

Definition alice : User := person 41 "alice".
Definition bob : User := person 42 "bob".
Definition admin : User := person ADMIN "admin".
Definition the_bot : User := person 7 "bot".

Definition text_in (c : Chat) (mid : Z) (u : User) (body : string)
  : Message :=
  {| message_id := mid; message_chat := c; from_user := u;
     text := Some (code_points body); caption := None; photo := [] |}.

Definition text_message (mid : Z) (u : User) (body : string) : Message :=
  text_in (private_chat (user_id u)) mid u body.

(** A photo in two sizes with a caption, sent to the bot in private. *)
Definition photo_message (mid : Z) (u : User) (cap : string) : Message :=
  {| message_id := mid; message_chat := private_chat (user_id u);
     from_user := u; text := None; caption := Some (code_points cap);
     photo := [ {| file_id := code_points "small" |};
                {| file_id := code_points "large" |} ] |}.

(** [u] presses a button under a text message of the bot in chat [c]. *)
Definition button_in (c : Chat) (u : User) (data : Callback)
  : CallbackQuery :=
  {| cb_from_user := u;
     cb_message := text_in c 1 the_bot "menu";
     cb_data := data |}.

Definition button (u : User) (data : Callback) : CallbackQuery :=
  button_in (private_chat (user_id u)) u data.

(** The bot of the scenarios: what it does with one update, with one
    delivery, and the world after a list of deliveries to the fresh
    process. *)
Definition handle (u : Update) : M unit :=
  dispatch ADMIN CommandStart Command_admin u.

Definition next (w : World) (dl : Delivery) : World :=
  step ADMIN CommandStart Command_admin w dl.

Definition after (dls : list Delivery) : World :=
  run ADMIN CommandStart Command_admin initial dls.

(** The float of a whole number of seconds. *)
Definition seconds (t : Z) : float := binary_normalize prec emax t 0 false.

(** A delivery at time [t] whose requests all go through. *)
Definition at_ (t : Z) (u : Update) : Delivery :=
  {| at_time := seconds t; outcomes := []; update_of := u |}.

Definition with_outcomes (outs : list Outcome) (dl : Delivery) : Delivery :=
  {| at_time := at_time dl; outcomes := outs; update_of := update_of dl |}.

Definition key_of (u : User) : Key := (user_id u, user_id u).

(** Alice writes to the bot in private; Bob does so from a supergroup whose
    message counter happens to stand at the same number. *)
Definition alice_then_bob : list Delivery :=
  [ at_ 100 (on_callback_query (button alice leave_review));
    at_ 110 (on_message (text_message 5 alice "Great service, loved it!"));
    at_ 120 (on_callback_query (button_in supergroup bob leave_review));
    at_ 130 (on_message (text_in supergroup 5 bob "Terrible, never again")) ].

Definition alice_review : Review :=
  review_of (text_message 5 alice "Great service, loved it!")
    (code_points "Great service, loved it!").

(** The administrator locks submissions, then tries to leave a review. *)
Definition lock_then_admin : list Delivery :=
  [ at_ 10 (on_callback_query (button admin confirm_lock));
    at_ 20 (on_callback_query (button admin final_lock));
    at_ 30 (on_callback_query (button admin leave_review)) ].

(** The administrator opens the presets and picks "1 day". *)
Definition pick_one_day : list Delivery :=
  [ at_ 10 (on_callback_query (button admin restrictions_timeout));
    at_ 20 (on_callback_query (button admin (set_timeout_ 86400))) ].

(** Alice has a review pending; the administrator starts to reject it with
    a reason, then opens the group list from an older menu. *)
Definition reject_then_groups : list Delivery :=
  [ at_ 100 (on_callback_query (button alice leave_review));
    at_ 110 (on_message (text_message 5 alice "Great service, loved it!"));
    at_ 120 (on_callback_query (button admin (reject_final_reason_ 5)));
    at_ 130 (on_callback_query (button admin admin_my_groups)) ].

(** Alice submits, opens the dialogue again while the cooldown is off, the
    administrator switches the cooldown to one day, and Alice sends a
    second text. *)
Definition second_within_cooldown : list Delivery :=
  [ at_ 100 (on_callback_query (button alice leave_review));
    at_ 110 (on_message (text_message 5 alice "Great service, loved it!"));
    at_ 120 (on_callback_query (button alice leave_review));
    at_ 130 (on_callback_query (button admin (set_timeout_ 86400)));
    at_ 140 (on_message (text_message 9 alice "And one more review")) ].

(** The bot is made administrator of the supergroup, and later removed
    from it. *)
Definition joined : ChatMemberUpdated :=
  {| upd_chat := supergroup; new_status := administrator |}.

Definition removed : ChatMemberUpdated :=
  {| upd_chat := supergroup; new_status := kicked |}.

(** A review of Alice is pending, a publish target is set, and the
    administrator approves: forwarding goes through, the notice to Alice
    raises (she has blocked the bot). *)
Definition approve_setup : list Delivery :=
  [ at_ 100 (on_callback_query (button alice leave_review));
    at_ 110 (on_message (text_message 5 alice "Great service, loved it!"));
    at_ 120 (on_my_chat_member joined);
    at_ 130 (on_callback_query (button admin (setmain_ (-1001)))) ].

Definition approve_notice_fails : Delivery :=
  with_outcomes [Returns None; Raises OtherException]
    (at_ 140 (on_callback_query (button admin (approve_ 5)))).

(** The cooldown is one day, Alice submits at 110 and presses "leave a
    review" again two hours later. *)
Definition cooldown_setup : list Delivery :=
  [ at_ 50 (on_callback_query (button admin (set_timeout_ 86400)));
    at_ 100 (on_callback_query (button alice leave_review));
    at_ 110 (on_message (text_message 5 alice "Great service, loved it!")) ].

Definition two_hours_later : World :=
  deliver (at_ 7310 (on_callback_query (button alice leave_review)))
    (after cooldown_setup).

(** The cooldown is one day and Alice's last submission is stamped
    [last]; she presses "leave a review" when the clock reads [now]. *)
Definition cooldown_world (last now : float) : World :=
  {| bot_data :=
       set_user_last_review_time {[ str 41 := last ]}
         (set_settings {| reviews_locked := false;
                          review_timeout_seconds := 86400 |} default_data);
     data_file := None; storage := ∅; outbox := []; replies := [];
     clock := now |}.

End Examples.

(** ** Further vocabulary: the document across updates *)

(** What a membership event does to the document, whatever becomes of the
    notice to the administrator. *)
Definition member_event_data (update : ChatMemberUpdated) (d : BotData)
  : BotData :=
  let chat := chat_id (upd_chat update) in
  let is_in_list := existsb (λ g, (g_id g =? chat)%Z) (groups d) in
  if negb (is_group_chat (chat_type (upd_chat update))) then d
  else
    match new_status update with
    | administrator | member =>
        if negb is_in_list
        then set_groups
               (groups d ++
                  [{| g_id := chat; g_title := chat_title (upd_chat update) |}])
               d
        else d
    | left | kicked =>
        if is_in_list
        then
          let d1 :=
            set_groups
              (List.filter (λ g, negb (g_id g =? chat)%Z) (groups d)) d in
          if bool_decide (main_group_id d1 = Some chat)
          then set_main_group_id None d1 else d1
        else d
    | creator | restricted => d
    end.

(** No two entries of the registry have the same chat id. *)
Definition unique_groups (d : BotData) : Prop :=
  NoDup (g_id <$> groups d).

(** The publish target, when set, is a chat of the registry. *)
Definition target_tracked (d : BotData) : Prop :=
  ∀ g, main_group_id d = Some g → tracked g d.

(** A press of "make this the publish target" names a tracked chat. *)
Definition setmain_names_tracked (u : Update) (d : BotData) : Prop :=
  ∀ callback g,
    u = on_callback_query callback → cb_data callback = setmain_ g →
    tracked g d.

(** Payloads whose handler only reads the document. *)
Definition read_only_payload (c : Callback) : bool :=
  match c with
  | approve_ _ | reject_final_noreason_ _ | setmain_ _ | set_timeout_ _
  | final_lock | final_unlock => false
  | _ => true
  end.

(** The file holds what is in memory. *)
Definition synced (w : World) : Prop := data_file w = Some (bot_data w).

(** Requests were added to the log, all of them satisfying [ok]. *)
Definition sent_only (ok : ApiCall → bool) : relation World := λ w w',
  ∃ more, outbox w' = outbox w ++ more ∧ forallb ok more = true.

Definition is_forward (c : ApiCall) : bool :=
  match c with forward_message _ _ _ => true | _ => false end.

Definition no_forward (c : ApiCall) : bool := negb (is_forward c).

(** Where the moderator acted on a stale review: the conversation of [k]
    is cleared, nothing else stored has changed, and the one request is the
    [notice]. *)
Definition only_notice (k : Key) (notice : ApiCall) (w w' : World) : Prop :=
  bot_data w' = bot_data w ∧ data_file w' = data_file w
  ∧ storage w' = delete k (storage w)
  ∧ outbox w' = outbox w ++ [notice].

(** The outcome of a computation is fine for the file: it raised, or it
    returned with the file equal to memory. *)
Definition ok_synced {A} (r : Result A * World) : Prop :=
  match r.1 with
  | Ok _ => synced r.2
  | Raised _ => True
  end.

(** [m], when it returns, has written the file last. *)
Definition saves {A} (m : M A) : Prop := ∀ w, ok_synced (m w).

(** [m] changes neither the document nor the file. *)
Definition reads_only {A} (m : M A) : Prop :=
  stable (same bot_data) m ∧ stable (same data_file) m.

(** [m], when it starts with the file equal to memory and returns, ends
    with the file equal to memory. *)
Definition keeps_synced {A} (m : M A) : Prop :=
  ∀ w, synced w → ok_synced (m w).

(** * Properties *)

(** ** Frame reasoning *)

Global Instance same_preorder {X} (g : World → X) : PreOrder (same g).
Proof.
  split.
  - intros w. reflexivity.
  - intros a b c Hab Hbc. unfold same in *. congruence.
Qed.

Global Instance no_new_waiting_preorder : PreOrder no_new_waiting.
Proof.
  split.
  - intros w k H. exact H.
  - intros a b c Hab Hbc k H. apply Hab, Hbc, H.
Qed.

Global Instance no_new_waiting_io_blind : IOBlind no_new_waiting.
Proof. intros w ob rp k H. exact H. Qed.

Section Stable.
Context (R : relation World) `{!PreOrder R}.

Lemma stable_ret {A} (a : A) : stable R (ret a).
Proof. intros w. reflexivity. Qed.

Lemma stable_bind {A B} (m : M A) (k : A → M B) :
  stable R m → (∀ a, stable R (k a)) → stable R (bind m k).
Proof.
  intros Hm Hk w. unfold bind. specialize (Hm w).
  destruct (m w) as [[a|e] w']; simpl in *.
  - etrans; [exact Hm | apply Hk].
  - exact Hm.
Qed.

Lemma stable_try_except {A} (body : M A) (handler : Exn → M A) :
  stable R body → (∀ e, stable R (handler e)) →
  stable R (try_except body handler).
Proof.
  intros Hm Hk w. unfold try_except. specialize (Hm w).
  destruct (body w) as [[a|e] w']; simpl in *.
  - exact Hm.
  - etrans; [exact Hm | apply Hk].
Qed.

Lemma stable_suppress (body : M unit) :
  stable R body → stable R (suppress_TelegramBadRequest body).
Proof.
  intros Hm w. unfold suppress_TelegramBadRequest. specialize (Hm w).
  destruct (body w) as [[a|[|]] w']; exact Hm.
Qed.

Lemma stable_get_bot_data : stable R get_bot_data.
Proof. intros w. reflexivity. Qed.

Lemma stable_datetime_now : stable R datetime_now.
Proof. intros w. reflexivity. Qed.

Lemma stable_state_get_data k : stable R (state_get_data k).
Proof. intros w. reflexivity. Qed.

Lemma stable_or_raise {A} (x : option A) : stable R (or_raise x).
Proof. intros w. destruct x; reflexivity. Qed.

Lemma stable_request `{!IOBlind R} c : stable R (request c).
Proof.
  intros w. unfold request.
  destruct (replies w) as [|[v|e] rest]; simpl; apply io_blind.
Qed.

Lemma stable_api `{!IOBlind R} c : stable R (api c).
Proof.
  unfold api. apply stable_bind; [apply stable_request|].
  intros _. apply stable_ret.
Qed.

Lemma stable_answer `{!IOBlind R} m t kb : stable R (answer m t kb).
Proof. apply stable_api. Qed.

End Stable.

Global Instance same_data_preorder {X} (h : BotData → X) :
  PreOrder (same_data h).
Proof. unfold same_data. apply _. Qed.

Global Instance same_data_io_blind {X} (h : BotData → X) :
  IOBlind (same_data h).
Proof. intros w ob rp. reflexivity. Qed.

Global Instance same_data_store_blind {X} (h : BotData → X) :
  StoreBlind (same_data h).
Proof. intros w s. reflexivity. Qed.

Global Instance same_bot_data_io_blind : IOBlind (same bot_data).
Proof. intros w ob rp. reflexivity. Qed.

Global Instance same_bot_data_store_blind : StoreBlind (same bot_data).
Proof. intros w s. reflexivity. Qed.

Global Instance same_file_io_blind : IOBlind (same data_file).
Proof. intros w ob rp. reflexivity. Qed.

Global Instance same_file_store_blind : StoreBlind (same data_file).
Proof. intros w s. reflexivity. Qed.

Global Instance same_storage_io_blind : IOBlind (same storage).
Proof. intros w ob rp. reflexivity. Qed.

Global Instance same_storage_doc_blind : DocBlind (same storage).
Proof. intros w d f. reflexivity. Qed.

Global Instance no_new_waiting_doc_blind : DocBlind no_new_waiting.
Proof. intros w d f k H. exact H. Qed.

Lemma stable_modify_blind R `{!DocBlind R} f : stable R (modify_bot_data f).
Proof. intros w. apply doc_blind. Qed.

Lemma stable_save_blind R `{!DocBlind R} : stable R save_data.
Proof. intros w. apply doc_blind. Qed.

Lemma stable_clear_blind R `{!StoreBlind R} k : stable R (state_clear k).
Proof. intros w. apply store_blind. Qed.

Lemma stable_set_state_blind R `{!StoreBlind R} k s :
  stable R (state_set_state k s).
Proof. intros w. apply store_blind. Qed.

Lemma stable_update_data_blind R `{!StoreBlind R} k i :
  stable R (state_update_data k i).
Proof. intros w. apply store_blind. Qed.

Lemma stable_modify_same {X} (h : BotData → X) f :
  (∀ d, h (f d) = h d) → stable (same_data h) (modify_bot_data f).
Proof. intros Hf w. apply Hf. Qed.

Lemma stable_save_same {X} (h : BotData → X) :
  stable (same_data h) save_data.
Proof. intros w. reflexivity. Qed.

Lemma stable_save_bot_data : stable (same bot_data) save_data.
Proof. intros w. reflexivity. Qed.

Lemma stable_modify_file f : stable (same data_file) (modify_bot_data f).
Proof. intros w. reflexivity. Qed.

Lemma no_new_waiting_clear k : stable no_new_waiting (state_clear k).
Proof.
  intros w k' H. unfold state_clear, modify_storage in H. simpl in H.
  unfold context_of in *. simpl in H.
  destruct (decide (k = k')) as [->|Hne].
  - rewrite lookup_delete_eq in H. discriminate.
  - by rewrite lookup_delete_ne in H.
Qed.

Lemma no_new_waiting_set_rejection k :
  stable no_new_waiting (state_set_state k waiting_for_rejection_reason).
Proof.
  intros w k' H. unfold context_of in *. simpl in H.
  destruct (decide (k = k')) as [->|Hne].
  - rewrite lookup_insert_eq in H. discriminate.
  - by rewrite lookup_insert_ne in H.
Qed.

Lemma no_new_waiting_update_data k i :
  stable no_new_waiting (state_update_data k i).
Proof.
  intros w k' H. unfold context_of in *. simpl in H.
  destruct (decide (k = k')) as [->|Hne].
  - rewrite lookup_insert_eq in H. exact H.
  - by rewrite lookup_insert_ne in H.
Qed.

Create HintDb frame discriminated.

#[export] Hint Resolve stable_ret stable_get_bot_data stable_datetime_now
  stable_state_get_data stable_or_raise stable_request stable_api stable_answer
  stable_modify_blind stable_save_blind stable_clear_blind
  stable_set_state_blind stable_update_data_blind stable_save_same
  stable_save_bot_data stable_modify_file no_new_waiting_clear no_new_waiting_set_rejection
  no_new_waiting_update_data : frame.

#[export] Hint Extern 2 (stable (same_data _) (modify_bot_data _)) =>
  apply stable_modify_same; intros ?; simpl; try case_bool_decide;
  reflexivity : frame.

#[export] Hint Extern 2 (stable (same bot_data) (modify_bot_data _)) =>
  intros ?; unfold same; simpl; try case_bool_decide; reflexivity : frame.

(** Walks through the binds, handlers and branches of a computation and
    closes the leaves with the [frame] hints. *)
Ltac frame_step :=
  lazymatch goal with
  | |- stable _ (bind _ _) =>
      apply stable_bind; [ apply _ | | intros ? ]
  | |- stable _ (try_except _ _) =>
      apply stable_try_except; [ apply _ | | intros ? ]
  | |- stable _ (suppress_TelegramBadRequest _) =>
      apply stable_suppress
  | |- stable _ (if ?b then _ else _) => destruct b
  | |- stable _ (match ?x with _ => _ end) => destruct x
  | |- stable _ _ => solve [ eauto with frame typeclass_instances ]
  end.

Ltac frame := cbv zeta; repeat frame_step.

Section HandlerFrames.
Variable ADMIN_ID : Z.
Context (R : relation World) `{!PreOrder R} `{!IOBlind R}.

Lemma stable_show_pending_reviews callback k :
  stable R (state_clear k) → stable R (show_pending_reviews callback k).
Proof. intros Hc. unfold show_pending_reviews. frame. Qed.

Lemma stable_show_my_groups callback : stable R (show_my_groups callback).
Proof. unfold show_my_groups. frame. Qed.

Lemma stable_delete_and_leave_group g callback :
  stable R (delete_and_leave_group g callback).
Proof.
  unfold delete_and_leave_group. frame. apply stable_show_my_groups.
Qed.

Lemma stable_restrictions_timeout_menu callback :
  stable R (restrictions_timeout_menu callback).
Proof. unfold restrictions_timeout_menu. frame. Qed.

Lemma stable_confirm_lock_unlock b callback :
  stable R (confirm_lock_unlock b callback).
Proof. unfold confirm_lock_unlock. frame. Qed.

End HandlerFrames.

Ltac unfold_handlers :=
  unfold route_message, route_callback;
  unfold back_to_main_menu, back_to_admin_panel, start_review,
    process_review, moderate_review, approve_review, reject_review_confirm,
    reject_final_noreason, reject_final_reason_prompt,
    process_rejection_reason, group_options, confirm_delete_group,
    delete_and_leave_group, set_main_group, restrictions_timeout_menu,
    set_timeout, confirm_lock_unlock, final_lock_unlock;
  unfold cmd_start, cmd_admin, show_pending_reviews, show_my_groups,
    admin_restrictions_menu, pending_pop.

(** *** Running the head of a computation *)

Lemma run_ret {A B} (a : A) (k : A → M B) w : bind (ret a) k w = k a w.
Proof. reflexivity. Qed.

Lemma run_assoc {A B C} (m : M A) (k1 : A → M B) (k2 : B → M C) w :
  bind (bind m k1) k2 w = bind m (λ a, bind (k1 a) k2) w.
Proof. unfold bind. by destruct (m w) as [[a|e] w']. Qed.

Lemma run_get_bot_data {B} (k : BotData → M B) w :
  bind get_bot_data k w = k (bot_data w) w.
Proof. reflexivity. Qed.

Lemma run_datetime_now {B} (k : float → M B) w :
  bind datetime_now k w = k (clock w) w.
Proof. reflexivity. Qed.

Lemma run_or_raise {A B} (a : A) (k : A → M B) w :
  bind (or_raise (Some a)) k w = k a w.
Proof. reflexivity. Qed.

Lemma run_state_get_data {B} key (k : Context → M B) w :
  bind (state_get_data key) k w = k (context_of key w) w.
Proof. reflexivity. Qed.

Lemma run_modify_bot_data {B} f (k : unit → M B) w :
  bind (modify_bot_data f) k w = k tt (with_bot_data (f (bot_data w)) w).
Proof. reflexivity. Qed.

Lemma run_save_data {B} (k : unit → M B) w :
  bind save_data k w = k tt (with_data_file w).
Proof. reflexivity. Qed.

Lemma run_modify_storage {B} f (k : unit → M B) w :
  bind (modify_storage f) k w = k tt (with_storage (f (storage w)) w).
Proof. reflexivity. Qed.

Lemma run_pending_pop {B} i (k : option Review → M B) w :
  bind (pending_pop i) k w =
  k (pending_reviews (bot_data w) !! i)
    (with_bot_data
       (set_pending_reviews (delete i (pending_reviews (bot_data w)))
          (bot_data w)) w).
Proof. reflexivity. Qed.

(** Runs the reads and writes at the head of the computation in the goal. *)
Ltac exec :=
  repeat first
    [ rewrite run_assoc
    | rewrite run_ret
    | rewrite run_get_bot_data
    | rewrite run_datetime_now
    | rewrite run_or_raise
    | rewrite run_state_get_data
    | rewrite run_modify_bot_data
    | rewrite run_save_data
    | rewrite run_pending_pop
    | rewrite run_modify_storage ];
  cbv beta.

(** An observation kept by the rest of the computation can be read off the
    world the rest starts from. *)
Lemma frame_eq {A X} (g : World → X) (m : M A) w :
  stable (same g) m → g (m w).2 = g w.
Proof. intros H. apply H. Qed.

Lemma frame_data_eq {A X} (h : BotData → X) (m : M A) w :
  stable (same_data h) m → h (bot_data (m w).2) = h (bot_data w).
Proof. intros H. apply H. Qed.

Ltac by_frame g := etrans; [ apply (frame_eq g); frame | ].

Ltac by_frame_data h := etrans; [ apply (frame_data_eq h); frame | ].

(** ** Membership tracker *)

Lemma is_in_list_tracked chat d :
  existsb (λ g, (g_id g =? chat)%Z) (groups d) = true ↔ tracked chat d.
Proof.
  rewrite existsb_exists. unfold tracked. split.
  - intros (g & Hin & Heq). exists g. split; [by apply list_elem_of_In|].
    by apply Z.eqb_eq.
  - intros (g & Hin & Heq). exists g. split; [by apply list_elem_of_In|].
    by apply Z.eqb_eq.
Qed.

Lemma not_tracked_after_filter chat d l :
  groups d = List.filter (λ g, negb (g_id g =? chat)%Z) l →
  ¬ tracked chat d.
Proof.
  intros Hd (g & Hin & Heq). rewrite Hd in Hin.
  apply list_elem_of_In, filter_In in Hin as [_ Hne].
  apply negb_true_iff, Z.eqb_neq in Hne. contradiction.
Qed.

Section Membership.
Variable ADMIN_ID : Z.

Lemma member_event_join update w :
  is_group_chat (chat_type (upd_chat update)) = true →
  new_status update = administrator ∨ new_status update = member →
  ¬ tracked (chat_id (upd_chat update)) (bot_data w) →
  bot_data (on_chat_member_updated ADMIN_ID update w).2 =
    set_groups
      (groups (bot_data w) ++
         [{| g_id := chat_id (upd_chat update);
             g_title := chat_title (upd_chat update) |}])
      (bot_data w).
Proof.
  intros Hg Hs Hn. apply (not_iff_compat (is_in_list_tracked _ _)) in Hn.
  apply not_true_is_false in Hn.
  unfold on_chat_member_updated. rewrite Hg. cbn [negb]. cbv zeta. exec.
  rewrite Hn. cbn [negb].
  destruct Hs as [-> | ->]; exec; by by_frame bot_data.
Qed.

Lemma member_event_leave update w :
  is_group_chat (chat_type (upd_chat update)) = true →
  new_status update = left ∨ new_status update = kicked →
  tracked (chat_id (upd_chat update)) (bot_data w) →
  bot_data (on_chat_member_updated ADMIN_ID update w).2 =
    let d :=
      set_groups
        (List.filter (λ g, negb (g_id g =? chat_id (upd_chat update))%Z)
           (groups (bot_data w)))
        (bot_data w) in
    if bool_decide (main_group_id d = Some (chat_id (upd_chat update)))
    then set_main_group_id None d else d.
Proof.
  intros Hg Hs Hn. apply is_in_list_tracked in Hn.
  unfold on_chat_member_updated. rewrite Hg. cbn [negb]. cbv zeta. exec.
  rewrite Hn.
  destruct Hs as [-> | ->]; exec; by by_frame bot_data.
Qed.

Lemma member_event_other_chat update w :
  is_group_chat (chat_type (upd_chat update)) = false →
  on_chat_member_updated ADMIN_ID update w = (Ok tt, w).
Proof. intros Hg. unfold on_chat_member_updated. by rewrite Hg. Qed.

End Membership.

(** C7. On a membership event for a group or supergroup: an active status
    (administrator, member) for a chat that is not in the registry appends
    it; a departure status (left, kicked) for a chat in the registry removes
    it and clears the publish target when it was this chat; an event for any
    other chat type changes nothing at all. *)
Theorem on_chat_member_updated_spec (ADMIN_ID : Z) update w :
  let chat := chat_id (upd_chat update) in
  let d := bot_data w in
  let w' := (on_chat_member_updated ADMIN_ID update w).2 in
  let d' := bot_data w' in
  (is_group_chat (chat_type (upd_chat update)) = true →
   (new_status update = administrator ∨ new_status update = member) →
   ¬ tracked chat d →
     groups d' =
       groups d ++ [{| g_id := chat; g_title := chat_title (upd_chat update) |}]
     ∧ tracked chat d'
     ∧ main_group_id d' = main_group_id d)
  ∧
  (is_group_chat (chat_type (upd_chat update)) = true →
   (new_status update = left ∨ new_status update = kicked) →
   tracked chat d →
     groups d' = List.filter (λ g, negb (g_id g =? chat)%Z) (groups d)
     ∧ ¬ tracked chat d'
     ∧ main_group_id d' =
         (if bool_decide (main_group_id d = Some chat)
          then None else main_group_id d))
  ∧
  (is_group_chat (chat_type (upd_chat update)) = false → w' = w).
Proof.
  intros chat d w' d'. split; [|split].
  - intros Hg Hs Hn. subst d' w'.
    rewrite (member_event_join ADMIN_ID update w Hg Hs Hn). simpl.
    split; [done|]. split; [|done].
    eexists. split; [apply elem_of_app; right; apply list_elem_of_singleton;
                     reflexivity | done].
  - intros Hg Hs Hn. subst d' w'.
    rewrite (member_event_leave ADMIN_ID update w Hg Hs Hn). cbv zeta.
    simpl. fold chat d. case_bool_decide; simpl.
    + split; [done|]. split; [|done].
      by eapply not_tracked_after_filter.
    + split; [done|]. split; [|done].
      by eapply not_tracked_after_filter.
  - intros Hg. subst w'.
    by rewrite (member_event_other_chat ADMIN_ID update w Hg).
Qed.

(** ** Leaving a group *)

Global Instance sent_more_preorder : PreOrder sent_more.
Proof.
  split.
  - intros w. exists []. by rewrite app_nil_r.
  - intros a b c [m1 H1] [m2 H2]. exists (m1 ++ m2).
    by rewrite H2, H1, app_assoc.
Qed.

Global Instance sent_more_doc_blind : DocBlind sent_more.
Proof. intros w d f. exists []. simpl. by rewrite app_nil_r. Qed.

Global Instance sent_more_store_blind : StoreBlind sent_more.
Proof. intros w s. exists []. simpl. by rewrite app_nil_r. Qed.

Lemma sent_more_request c : stable sent_more (request c).
Proof.
  intros w. exists [c]. unfold request.
  by destruct (replies w) as [|[v|e] rest].
Qed.

Lemma sent_more_api c : stable sent_more (api c).
Proof.
  unfold api. apply stable_bind; [apply _|apply sent_more_request|].
  intros _. apply stable_ret. apply _.
Qed.

#[export] Hint Resolve sent_more_request sent_more_api : frame.

Lemma sent_more_show_my_groups callback :
  stable sent_more (show_my_groups callback).
Proof. unfold show_my_groups. frame. Qed.

Lemma delete_and_leave_group_requests group_id callback w :
  let report :=
    match replies w with
    | Raises e :: _ => txt_leave_error e
    | _ => txt_left_group
    end in
  ∃ more,
    outbox (delete_and_leave_group group_id callback w).2 =
      outbox w ++
        leave_chat group_id :: callback_answer (Some report) :: more
    ∧ forallb
        (λ c, match c with
              | callback_answer _ | message_edit_text _ _ => true
              | _ => false
              end) more = true.
Proof.
  unfold delete_and_leave_group, show_my_groups, api, try_except, bind,
    request, ret, get_bot_data.
  cbv beta zeta.
  destruct (replies w) as [|[v|e] [|[v'|e'] [|[v''|e''] [|[v3|e3] rest]]]];
    simpl; destruct (groups (bot_data w)); simpl;
    eexists; (split; [rewrite <- ?app_assoc; simpl; reflexivity|reflexivity]).
Qed.

Section Dispatch.
Variable ADMIN_ID : Z.
Variables CommandStart Command_admin : Message → bool.
Set Default Proof Using "Type".

Lemma dispatch_keeps_groups u :
  (∀ upd, u ≠ on_my_chat_member upd) →
  stable (same_data groups) (dispatch ADMIN_ID CommandStart Command_admin u).
Proof.
  intros Hu. destruct u as [message|callback|upd]; simpl.
  - unfold_handlers. frame.
  - unfold_handlers. destruct (cb_data callback); frame.
  - by destruct (Hu upd).
Qed.

Lemma dispatch_keeps_main_group u :
  (∀ upd, u ≠ on_my_chat_member upd) →
  (∀ callback g, u = on_callback_query callback →
                 cb_data callback ≠ setmain_ g) →
  stable (same_data main_group_id)
      (dispatch ADMIN_ID CommandStart Command_admin u).
Proof.
  intros Hu Hs. destruct u as [message|callback|upd]; simpl.
  - unfold_handlers. frame.
  - unfold_handlers. specialize (Hs callback).
    destruct (cb_data callback); try frame.
    by destruct (Hs group_id).
  - by destruct (Hu upd).
Qed.

End Dispatch.

(** C10. The final "delete and leave" action issues the leave-chat request
    and next reports to the administrator in an alert: that the bot has
    left when the request returns, the error when it raises; whatever it
    requests after that is another alert or the edit of the menu message.
    It leaves the document (in memory and on disk) and the conversation
    states as they were, whatever the platform answers; the registry is
    changed by membership events only, and the publish target by membership
    events and by the explicit choice of a publish target only. *)
Theorem delete_and_leave_group_frame (ADMIN_ID : Z)
    (CommandStart Command_admin : Message → bool) group_id callback w :
  let w' := (delete_and_leave_group group_id callback w).2 in
  let report :=
    match replies w with
    | Raises e :: _ => txt_leave_error e
    | _ => txt_left_group
    end in
  (bot_data w' = bot_data w ∧ data_file w' = data_file w
   ∧ storage w' = storage w
   ∧ ∃ more,
       outbox w' =
         outbox w ++
           leave_chat group_id :: callback_answer (Some report) :: more
       ∧ forallb
           (λ c, match c with
                 | callback_answer _ | message_edit_text _ _ => true
                 | _ => false
                 end) more = true)
  ∧ (∀ u w0, (∀ upd, u ≠ on_my_chat_member upd) →
       groups (bot_data (dispatch ADMIN_ID CommandStart Command_admin u w0).2)
       = groups (bot_data w0))
  ∧ (∀ u w0, (∀ upd, u ≠ on_my_chat_member upd) →
       (∀ cb g, u = on_callback_query cb → cb_data cb ≠ setmain_ g) →
       main_group_id
         (bot_data (dispatch ADMIN_ID CommandStart Command_admin u w0).2) =
       main_group_id (bot_data w0)).
Proof.
  intros w' report. subst w' report. split; [|split].
  - split; [|split; [|split]].
    + apply (stable_delete_and_leave_group (same bot_data)).
    + apply (stable_delete_and_leave_group (same data_file)).
    + apply (stable_delete_and_leave_group (same storage)).
    + apply delete_and_leave_group_requests.
  - intros u w0 Hu.
    by apply
        (dispatch_keeps_groups ADMIN_ID CommandStart Command_admin u Hu w0).
  - intros u w0 Hu Hs.
    by apply (dispatch_keeps_main_group ADMIN_ID CommandStart Command_admin
                u Hu Hs w0).
Qed.

(** ** Conversation resets *)

Global Instance cleared_or_same_preorder k : PreOrder (cleared_or_same k).
Proof.
  split.
  - intros w. by left.
  - intros a b c [H1|H1] [H2|H2]; unfold cleared_or_same;
      rewrite H2, H1; [by left|by right|by right|].
    right. apply map_eq. intros j. destruct (decide (k = j)) as [->|Hne].
    + by rewrite !lookup_delete_eq.
    + by rewrite !lookup_delete_ne.
Qed.

Global Instance cleared_or_same_io_blind k : IOBlind (cleared_or_same k).
Proof. intros w ob rp. by left. Qed.

Global Instance cleared_or_same_doc_blind k : DocBlind (cleared_or_same k).
Proof. intros w d f. by left. Qed.

Lemma cleared_or_same_clear k : stable (cleared_or_same k) (state_clear k).
Proof. intros w. by right. Qed.

#[export] Hint Resolve cleared_or_same_clear : frame.

(** A computation that clears the context of [k] first and afterwards
    only clears it again ends with exactly that context cleared. *)
Lemma clear_then_stable {A} k (rest : M A) w :
  stable (cleared_or_same k) rest →
  storage ((state_clear k ;; rest) w).2 = delete k (storage w).
Proof.
  intros Hrest. unfold state_clear. rewrite run_modify_storage.
  destruct (Hrest (with_storage (delete k (storage w)) w)) as [->| ->];
    simpl; [done|].
  apply map_eq. intros j. destruct (decide (k = j)) as [->|Hne].
  - by rewrite !lookup_delete_eq.
  - by rewrite !lookup_delete_ne.
Qed.

Lemma context_of_cleared k w w0 :
  storage w = delete k (storage w0) → context_of k w = idle.
Proof. intros H. unfold context_of. by rewrite H, lookup_delete_eq. Qed.

(** ** Rejection *)

Section Rejection.
Variable ADMIN_ID : Z.

Lemma reject_final_noreason_pending i r callback k w :
  pending_reviews (bot_data w) !! i = Some r →
  pending_reviews (bot_data (reject_final_noreason i callback k w).2) =
  delete i (pending_reviews (bot_data w)).
Proof.
  intros Hr. unfold reject_final_noreason, state_clear. exec. simpl.
  rewrite Hr. unfold show_pending_reviews.
  by by_frame_data pending_reviews.
Qed.

Lemma process_rejection_reason_pending i r message k w :
  pending_reviews (bot_data w) !! i = Some r →
  review_id_to_reject (context_of k w) = Some i →
  pending_reviews
    (bot_data (process_rejection_reason ADMIN_ID message k w).2) =
  delete i (pending_reviews (bot_data w)).
Proof.
  intros Hr Hk. unfold process_rejection_reason. exec. cbv zeta.
  rewrite Hk. exec. unfold state_clear. exec. simpl. rewrite Hr.
  unfold cmd_admin, cmd_start.
  by by_frame_data pending_reviews.
Qed.

End Rejection.

(** C2. Rejecting a pending review, without a reason or with one, removes
    it from the pending set and leaves it removed at the end of the handler,
    whatever happens to the notification of the submitter and to every
    other request (each may return, raise TelegramBadRequest or raise
    anything else: the world [w] carries the outcomes). *)
Theorem reject_removes_review (ADMIN_ID : Z) i r w :
  pending_reviews (bot_data w) !! i = Some r →
  (∀ callback k,
     let w' := (reject_final_noreason i callback k w).2 in
     pending_reviews (bot_data w') = delete i (pending_reviews (bot_data w))
     ∧ pending_reviews (bot_data w') !! i = None)
  ∧
  (∀ message k,
     review_id_to_reject (context_of k w) = Some i →
     let w' := (process_rejection_reason ADMIN_ID message k w).2 in
     pending_reviews (bot_data w') = delete i (pending_reviews (bot_data w))
     ∧ pending_reviews (bot_data w') !! i = None).
Proof.
  intros Hr. split.
  - intros callback k w'. subst w'.
    rewrite (reject_final_noreason_pending i r callback k w Hr).
    split; [done|]. apply lookup_delete_eq.
  - intros message k Hk w'. subst w'.
    rewrite (process_rejection_reason_pending ADMIN_ID i r message k w Hr Hk).
    split; [done|]. apply lookup_delete_eq.
Qed.

(** ** Submission *)

Section Submission.
Variable ADMIN_ID : Z.

Lemma length_check_true (body : pystr) :
  (10 ≤ len body ≤ 50)%nat →
  negb ((10 <=? len body)%nat && (len body <=? 50)%nat) = false.
Proof.
  intros [H1 H2]. apply Nat.leb_le in H1, H2. by rewrite H1, H2.
Qed.

Lemma length_check_false (body : pystr) :
  (len body ≤ 9 ∨ 51 ≤ len body)%nat →
  negb ((10 <=? len body)%nat && (len body <=? 50)%nat) = true.
Proof.
  intros H. apply negb_true_iff, andb_false_iff.
  destruct H as [H|H]; [left|right]; apply Nat.leb_gt; lia.
Qed.

Lemma answer_only message err w :
  let w' := (answer message err None w).2 in
  bot_data w' = bot_data w ∧ data_file w' = data_file w
  ∧ storage w' = storage w
  ∧ outbox w' =
      outbox w ++ [message_answer (chat_id (message_chat message)) err None].
Proof.
  unfold answer, api, bind, request, ret. cbv beta.
  by destruct (replies w) as [|[v|e] rest].
Qed.

Lemma process_review_turned_down message k w :
  (∀ body, submitted_text message = Some body →
           (len body ≤ 9 ∨ 51 ≤ len body)%nat) →
  turned_down message w (process_review ADMIN_ID message k w).2.
Proof.
  intros Hlen. unfold process_review, turned_down.
  destruct (submitted_text message) as [[|c body]|] eqn:Htext.
  - destruct (answer_only message txt_err_caption w) as (?&?&?&?).
    repeat split; try done. exists txt_err_caption.
    split; [set_solver|done].
  - rewrite (length_check_false (c :: body)) by (by apply Hlen).
    destruct (answer_only message txt_err_length w) as (?&?&?&?).
    repeat split; try done. exists txt_err_length.
    split; [set_solver|done].
  - destruct (answer_only message txt_err_caption w) as (?&?&?&?).
    repeat split; try done. exists txt_err_caption.
    split; [set_solver|done].
Qed.

Lemma process_review_accepted message k w body :
  submitted_text message = Some body →
  (10 ≤ len body ≤ 50)%nat →
  let w' := (process_review ADMIN_ID message k w).2 in
  bot_data w' = bot_data (stored message body k w)
  ∧ data_file w' = Some (bot_data w')
  ∧ storage w' = delete k (storage w).
Proof.
  intros Htext Hlen. unfold process_review. rewrite Htext.
  destruct body as [|c body]; [simpl in Hlen; lia|].
  rewrite (length_check_true (c :: body) Hlen). cbv zeta.
  unfold state_clear. exec. unfold cmd_start.
  split; [|split].
  - by by_frame bot_data.
  - by_frame data_file. simpl. f_equal. symmetry.
    by by_frame bot_data.
  - match goal with |- storage (?rest ?w1).2 = _ =>
      assert (stable (cleared_or_same k) rest) as Hrest by frame;
      destruct (Hrest w1) as [->| ->]
    end; simpl; [done|].
    apply map_eq. intros j. destruct (decide (k = j)) as [->|Hne].
    + by rewrite !lookup_delete_eq.
    + by rewrite !lookup_delete_ne.
Qed.

End Submission.

(** The text of a submission is the caption when the message has a photo,
    and the message text when it has none. *)
Lemma submitted_text_spec message body :
  submitted_text message = Some body ↔
  (photo message = [] ∧ text message = Some body)
  ∨ (photo message ≠ [] ∧ caption message = Some body).
Proof.
  unfold submitted_text. destruct (photo message) as [|p ps]; simpl.
  - split; [by left|]. by intros [[_ H]|[H _]].
  - split; [by right|]. by intros [[H _]|[_ H]].
Qed.

(** C3. A submission whose text (the message text, or the caption when
    the message carries a photo) has 10 to 50 characters is accepted: the
    record stored under the message id holds the sender, that text and the
    file id of the largest photo size (none for a text message), the
    sender's cooldown entry is the clock reading, and the file holds the
    document.  A text of at most 9 or at least 51 characters is answered
    with the error in the sender's chat (the caption error for an empty
    text, the length error otherwise) and nothing changes: no record, no
    cooldown stamp, same file, same conversation states. *)
Theorem process_review_length_check (ADMIN_ID : Z) message k w body :
  (photo message = [] ∧ text message = Some body)
  ∨ (photo message ≠ [] ∧ caption message = Some body) →
  let w' := (process_review ADMIN_ID message k w).2 in
  ((10 ≤ length body ≤ 50)%nat →
     pending_reviews (bot_data w') !! message_id message =
       Some {| r_user_id := user_id (from_user message);
               r_username := user_username (from_user message);
               r_first_name := user_first_name (from_user message);
               r_text := body;
               r_photo_file_id := file_id <$> last (photo message) |}
     ∧ user_last_review_time (bot_data w')
         !! str (user_id (from_user message)) = Some (clock w)
     ∧ data_file w' = Some (bot_data w'))
  ∧ ((length body ≤ 9 ∨ 51 ≤ length body)%nat →
     bot_data w' = bot_data w ∧ data_file w' = data_file w
     ∧ storage w' = storage w
     ∧ outbox w' =
         outbox w ++
           [message_answer (chat_id (message_chat message))
              match body with
              | [] => txt_err_caption
              | _ => txt_err_length
              end None]).
Proof.
  intros Hbody w'. subst w'. apply submitted_text_spec in Hbody as Htext.
  split.
  - intros Hlen.
    destruct (process_review_accepted ADMIN_ID message k w body Htext Hlen)
      as (Hd & Hf & _).
    split; [|split; [|done]]; rewrite Hd; simpl; apply lookup_insert_eq.
  - intros Hlen. unfold process_review. rewrite Htext.
    destruct body as [|c body]; [apply answer_only|].
    rewrite (length_check_false (c :: body) Hlen). apply answer_only.
Qed.

(** A photo without caption is turned down as well. *)
Lemma process_review_no_text (ADMIN_ID : Z) message k w :
  submitted_text message = None →
  turned_down message w (process_review ADMIN_ID message k w).2.
Proof.
  intros Htext. apply process_review_turned_down.
  intros body Hb. by rewrite Htext in Hb.
Qed.

(** C8 (as the code has it). The pending set is a map from message
    identifiers to records, so an identifier names at most one pending
    review.  An accepted submission is stored under the identifier of its
    message: every record under another identifier is kept, and when the
    identifier is not pending yet every pending record is kept; a record
    already pending under the same identifier is replaced. *)
Theorem process_review_keying (ADMIN_ID : Z) message k w body :
  submitted_text message = Some body →
  (10 ≤ len body ≤ 50)%nat →
  let p := pending_reviews (bot_data w) in
  let p' := pending_reviews (bot_data (process_review ADMIN_ID message k w).2) in
  p' = <[message_id message := review_of message body]> p
  ∧ (∀ j, j ≠ message_id message → p' !! j = p !! j)
  ∧ (p !! message_id message = None →
       ∀ j r, p !! j = Some r → p' !! j = Some r)
  ∧ (∀ j r1 r2, p' !! j = Some r1 → p' !! j = Some r2 → r1 = r2).
Proof.
  intros Htext Hlen p p'.
  assert (p' = <[message_id message := review_of message body]> p) as Hp'.
  { subst p p'.
    destruct (process_review_accepted ADMIN_ID message k w body Htext Hlen)
      as (Hd & _ & _).
    by rewrite Hd. }
  split; [done|]. split; [|split].
  - intros j Hj. rewrite Hp'. by apply lookup_insert_ne.
  - intros Hfree j r Hr. rewrite Hp'.
    destruct (decide (message_id message = j)) as [<-|Hne].
    + congruence.
    + by rewrite lookup_insert_ne.
  - intros j r1 r2 H1 H2. congruence.
Qed.

(** ** Approval *)

Section Approval.

Local Arguments show_pending_reviews : simpl never.
Local Arguments truthy_int : simpl never.

Ltac run_approve :=
  unfold approve_review, state_clear, pending_pop, api, try_except, bind,
    get_bot_data, modify_bot_data, modify_storage, save_data, request, ret;
  cbv beta; simpl.

Lemma pending_after_show callback k w :
  pending_reviews (bot_data (show_pending_reviews callback k w).2) =
  pending_reviews (bot_data w).
Proof.
  apply (stable_show_pending_reviews (same_data pending_reviews)).
  auto with frame typeclass_instances.
Qed.

Lemma outbox_after_show callback k w :
  ∃ more, outbox (show_pending_reviews callback k w).2 = outbox w ++ more.
Proof.
  assert (stable sent_more (show_pending_reviews callback k)) as H.
  { unfold show_pending_reviews. frame. }
  apply H.
Qed.

(** Forwarding raises and the failure alert goes through: the review is
    back, and the pending set is what it was. *)
Lemma approve_review_forward_failed i r callback k w e rest :
  pending_reviews (bot_data w) !! i = Some r →
  truthy_int (main_group_id (bot_data w)) = true →
  replies w = Raises e :: rest →
  next_returns rest →
  pending_reviews (bot_data (approve_review i callback k w).2) =
  pending_reviews (bot_data w).
Proof.
  intros Hr Hg Hrep Hnext. run_approve.
  rewrite Hr; simpl; rewrite Hg; simpl; rewrite Hrep; simpl.
  destruct rest as [|[v|e'] rest]; simpl; try done;
    rewrite pending_after_show; simpl;
    by rewrite insert_delete_eq, insert_id.
Qed.


(** No publish target: the review is removed and nothing is forwarded. *)
Lemma approve_review_no_target i r callback k w :
  pending_reviews (bot_data w) !! i = Some r →
  truthy_int (main_group_id (bot_data w)) = false →
  pending_reviews (bot_data (approve_review i callback k w).2) =
  delete i (pending_reviews (bot_data w)).
Proof.
  intros Hr Hg. run_approve. rewrite Hr; simpl; rewrite Hg; simpl.
  destruct (replies w) as [|[v1|e1] [|[v2|e2] rest]]; simpl;
    try done; by rewrite pending_after_show.
Qed.

(** Forwarding raises and the failure alert raises too: the handler is
    left before the review is put back and before the file is written. *)
Lemma approve_review_alert_failed i r callback k w e e' rest :
  pending_reviews (bot_data w) !! i = Some r →
  truthy_int (main_group_id (bot_data w)) = true →
  replies w = Raises e :: Raises e' :: rest →
  let w' := (approve_review i callback k w).2 in
  pending_reviews (bot_data w') = delete i (pending_reviews (bot_data w))
  ∧ data_file w' = data_file w.
Proof.
  intros Hr Hg Hrep. run_approve.
  by rewrite Hr; simpl; rewrite Hg; simpl; rewrite Hrep; simpl.
Qed.

(** C1 (defect in the code). Approval with a publish target: forwarding
    goes through, the notice to the submitter raises.  The handler meant
    for forwarding errors catches it: the review, already forwarded to the
    group, is put back into the pending set, so it does not stay removed
    although forwarding succeeded. *)
Theorem approve_review_notice_failed i r g callback k w v e rest :
  pending_reviews (bot_data w) !! i = Some r →
  main_group_id (bot_data w) = Some g →
  g ≠ 0%Z →
  replies w = Returns v :: Raises e :: rest →
  next_returns rest →
  let w' := (approve_review i callback k w).2 in
  pending_reviews (bot_data w') = pending_reviews (bot_data w)
  ∧ ∃ more,
      outbox w' =
        outbox w ++
          forward_message g (r_user_id r) i
          :: send_message (r_user_id r) txt_approved_published
          :: callback_answer (Some (txt_forward_error e)) :: more.
Proof.
  intros Hr Hg Hg0 Hrep Hnext.
  assert (truthy_int (main_group_id (bot_data w)) = true) as Ht.
  { rewrite Hg. simpl. by apply negb_true_iff, Z.eqb_neq. }
  run_approve.
  rewrite Hr; simpl; rewrite Ht; simpl; rewrite Hrep, Hg; simpl.
  destruct rest as [|[v'|e'] rest]; simpl; try done.
  - rewrite pending_after_show. simpl.
    split; [by rewrite insert_delete_eq, insert_id|].
    match goal with |- context [show_pending_reviews _ _ ?w1] =>
      destruct (outbox_after_show callback k w1) as [more ->] end.
    exists more. simpl. by rewrite <- !app_assoc.
  - rewrite pending_after_show. simpl.
    split; [by rewrite insert_delete_eq, insert_id|].
    match goal with |- context [show_pending_reviews _ _ ?w1] =>
      destruct (outbox_after_show callback k w1) as [more ->] end.
    exists more. simpl. by rewrite <- !app_assoc.
Qed.

End Approval.

(** ** The submission lock and the restriction settings *)

Global Instance stays_locked_preorder : PreOrder stays_locked.
Proof.
  split.
  - intros w H. exact H.
  - intros a b c Hab Hbc H. apply Hbc, Hab, H.
Qed.

Global Instance stays_locked_io_blind : IOBlind stays_locked.
Proof. intros w ob rp H. exact H. Qed.

Global Instance stays_locked_store_blind : StoreBlind stays_locked.
Proof. intros w s H. exact H. Qed.

Lemma stays_locked_save : stable stays_locked save_data.
Proof. intros w H. exact H. Qed.

Lemma stays_locked_modify f :
  (∀ d, reviews_locked (settings d) = true →
        reviews_locked (settings (f d)) = true) →
  stable stays_locked (modify_bot_data f).
Proof. intros Hf w H. apply Hf, H. Qed.

#[export] Hint Resolve stays_locked_save : frame.

#[export] Hint Extern 2 (stable stays_locked (modify_bot_data _)) =>
  apply stays_locked_modify; intros ? ?; simpl; try case_bool_decide; done
  : frame.

Lemma api_only c w :
  let w' := (api c w).2 in
  bot_data w' = bot_data w ∧ data_file w' = data_file w
  ∧ storage w' = storage w ∧ outbox w' = outbox w ++ [c].
Proof.
  unfold api, bind, request, ret. cbv beta.
  by destruct (replies w) as [|[v|e] rest].
Qed.

Section Restrictions.
Variable ADMIN_ID : Z.
Variables CommandStart Command_admin : Message → bool.
Set Default Proof Using "Type".

Lemma start_review_locked callback k w :
  locked w →
  start_review ADMIN_ID callback k w =
  api (callback_answer (Some txt_reviews_paused)) w.
Proof.
  intros H. unfold start_review. cbv zeta. rewrite run_get_bot_data.
  unfold locked in H. by rewrite H.
Qed.

Lemma on_chat_member_updated_stable R `{!PreOrder R} `{!IOBlind R}
    `{!DocBlind R} update :
  stable R (on_chat_member_updated ADMIN_ID update).
Proof. unfold on_chat_member_updated. frame. Qed.

Lemma dispatch_stays_locked u :
  not_unlock u → stable stays_locked
      (dispatch ADMIN_ID CommandStart Command_admin u).
Proof.
  intros Hu. destruct u as [message|callback|upd]; simpl.
  - unfold_handlers. frame.
  - unfold_handlers. specialize (Hu callback eq_refl).
    destruct (cb_data callback); try done; frame.
  - unfold on_chat_member_updated. frame.
Qed.

Lemma dispatch_no_new_waiting_locked u w :
  locked w → no_new_waiting w
      (dispatch ADMIN_ID CommandStart Command_admin u w).2.
Proof.
  intros Hw. destruct u as [message|callback|upd]; simpl.
  - clear Hw. revert w.
    change (stable no_new_waiting
        (route_message ADMIN_ID CommandStart Command_admin message)).
    unfold_handlers. frame.
  - unfold route_callback.
    destruct (cb_data callback) eqn:Hdata;
      try solve
        [ clear Hw; revert w;
          match goal with |- ∀ w, no_new_waiting w (?m w).2 =>
            change (stable no_new_waiting m) end;
          unfold_handlers; frame ].
    rewrite (start_review_locked _ _ _ Hw).
    apply (stable_api no_new_waiting).
  - apply on_chat_member_updated_stable; apply _.
Qed.

Lemma step_locked w dl :
  locked w → not_unlock (update_of dl) →
  locked (step ADMIN_ID CommandStart Command_admin w dl)
  ∧ no_new_waiting w (step ADMIN_ID CommandStart Command_admin w dl).
Proof.
  intros Hw Hu. unfold step. split.
  - by apply (dispatch_stays_locked _ Hu (deliver dl w)).
  - intros k Hk.
    by apply (dispatch_no_new_waiting_locked (update_of dl) (deliver dl w)).
Qed.

Lemma run_locked dls : ∀ w,
  locked w → Forall (λ dl, not_unlock (update_of dl)) dls →
  locked (run ADMIN_ID CommandStart Command_admin w dls)
  ∧ no_new_waiting w (run ADMIN_ID CommandStart Command_admin w dls).
Proof.
  induction dls as [|dl dls IH]; intros w Hw Hall; simpl.
  - split; [done|]. by intros k.
  - inversion Hall as [|? ? Hdl Hall']; subst.
    destruct (step_locked w dl Hw Hdl) as [Hl Hn].
    destruct (IH _ Hl Hall') as [Hl' Hn'].
    split; [done|]. intros k Hk. by apply Hn, Hn'.
Qed.

Lemma dispatch_keeps_lock_flag u :
  not_final u →
  stable (same_data (λ d, reviews_locked (settings d)))
    (dispatch ADMIN_ID CommandStart Command_admin u).
Proof.
  intros Hu. destruct u as [message|callback|upd]; simpl.
  - unfold_handlers. frame.
  - unfold_handlers. destruct (Hu callback eq_refl) as [H1 H2].
    destruct (cb_data callback); try done; frame.
  - unfold on_chat_member_updated. frame.
Qed.

Lemma dispatch_keeps_timeout u :
  not_set_timeout u →
  stable (same_data (λ d, review_timeout_seconds (settings d)))
    (dispatch ADMIN_ID CommandStart Command_admin u).
Proof.
  intros Hu. destruct u as [message|callback|upd]; simpl.
  - unfold_handlers. frame.
  - unfold_handlers. specialize (Hu callback).
    destruct (cb_data callback);
      try (by destruct (Hu seconds eq_refl)); frame.
  - unfold on_chat_member_updated. frame.
Qed.

Lemma final_lock_unlock_sets is_locking callback w :
  let w' := (final_lock_unlock is_locking callback w).2 in
  reviews_locked (settings (bot_data w')) = is_locking
  ∧ review_timeout_seconds (settings (bot_data w')) =
      review_timeout_seconds (settings (bot_data w)).
Proof.
  unfold final_lock_unlock, admin_restrictions_menu. exec. split.
  - by by_frame_data (λ d, reviews_locked (settings d)).
  - by by_frame_data (λ d, review_timeout_seconds (settings d)).
Qed.

Lemma set_timeout_sets seconds callback w :
  let w' := (set_timeout seconds callback w).2 in
  review_timeout_seconds (settings (bot_data w')) = seconds
  ∧ reviews_locked (settings (bot_data w')) =
      reviews_locked (settings (bot_data w)).
Proof.
  unfold set_timeout, admin_restrictions_menu. exec. split.
  - by by_frame_data (λ d, review_timeout_seconds (settings d)).
  - by by_frame_data (λ d, reviews_locked (settings d)).
Qed.

End Restrictions.

(** C5 (as the code has it). While the lock is engaged, pressing "leave a
    review" is answered with the lock notice and opens no submission
    dialogue, for every user, the administrator included; and over any
    sequence of updates without a confirmed unlock the lock stays engaged
    and no conversation enters [waiting_for_review]. *)
Theorem lock_blocks_every_user (ADMIN_ID : Z)
    (CommandStart Command_admin : Message → bool) w :
  locked w →
  (∀ callback k,
     let w' := (start_review ADMIN_ID callback k w).2 in
     bot_data w' = bot_data w ∧ storage w' = storage w
     ∧ outbox w' = outbox w ++ [callback_answer (Some txt_reviews_paused)])
  ∧
  (∀ dls, Forall (λ dl, not_unlock (update_of dl)) dls →
     locked (run ADMIN_ID CommandStart Command_admin w dls)
     ∧ no_new_waiting w (run ADMIN_ID CommandStart Command_admin w dls)).
Proof.
  intros Hw. split.
  - intros callback k w'. subst w'.
    rewrite (start_review_locked ADMIN_ID callback k w Hw).
    destruct (api_only (callback_answer (Some txt_reviews_paused)) w)
      as (?&?&?&?).
    done.
  - intros dls Hall. by apply run_locked.
Qed.

(** The claim fails for the administrator: with the lock engaged, the
    administrator's own press of "leave a review" gets the lock notice and
    does not open the submission dialogue. *)
Lemma lock_blocks_administrator :
  let w := Examples.after Examples.lock_then_admin in
  locked w
  ∧ cur_state (context_of (Examples.key_of Examples.admin) w)
      ≠ Some waiting_for_review
  ∧ last (outbox w) = Some (callback_answer (Some txt_reviews_paused)).
Proof. vm_compute. repeat split; congruence. Qed.

Lemma lock_blocks_every_user_witness :
  let w := Examples.after
             (take 2 Examples.lock_then_admin) in
  locked w
  ∧ storage
      (start_review Examples.ADMIN
         (Examples.button Examples.alice leave_review)
         (Examples.key_of Examples.alice) w).2 = storage w.
Proof.
  split; [reflexivity|].
  apply (lock_blocks_every_user Examples.ADMIN Examples.CommandStart
           Examples.Command_admin
           (Examples.after
              (take 2 Examples.lock_then_admin))).
  reflexivity.
Defined.

(** C6 (as the code has it). The lock is toggled in two steps: the
    selection ([confirm_lock] / [confirm_unlock]) only shows the question
    and leaves the document alone, the flag changes on the confirmation
    ([final_...]) and on no other update.  The cooldown has no such step:
    choosing a preset stores it at once; the presets menu itself changes
    nothing, and no update other than the choice of a preset changes the
    cooldown. *)
Theorem restriction_changes (ADMIN_ID : Z)
    (CommandStart Command_admin : Message → bool) :
  (∀ locking callback w,
     let w' := (confirm_lock_unlock locking callback w).2 in
     bot_data w' = bot_data w ∧ data_file w' = data_file w)
  ∧ (∀ u w, not_final u →
       reviews_locked (settings (bot_data
           (dispatch ADMIN_ID CommandStart Command_admin u w).2)) =
       reviews_locked (settings (bot_data w)))
  ∧ (∀ is_locking callback w,
       reviews_locked
         (settings (bot_data (final_lock_unlock is_locking callback w).2)) =
       is_locking)
  ∧ (∀ callback w,
       bot_data (restrictions_timeout_menu callback w).2 = bot_data w)
  ∧ (∀ seconds callback w,
       review_timeout_seconds
         (settings (bot_data (set_timeout seconds callback w).2)) = seconds)
  ∧ (∀ u w, not_set_timeout u →
       review_timeout_seconds (settings (bot_data
           (dispatch ADMIN_ID CommandStart Command_admin u w).2)) =
       review_timeout_seconds (settings (bot_data w))).
Proof.
  split; [|split; [|split; [|split; [|split]]]].
  - intros locking callback w w'. subst w'. split.
    + apply (stable_confirm_lock_unlock (same bot_data)).
    + apply (stable_confirm_lock_unlock (same data_file)).
  - intros u w Hu. by apply
      (dispatch_keeps_lock_flag ADMIN_ID CommandStart Command_admin u).
  - intros is_locking callback w. apply final_lock_unlock_sets.
  - intros callback w.
    apply (stable_restrictions_timeout_menu (same bot_data)).
  - intros seconds callback w. apply set_timeout_sets.
  - intros u w Hu. by apply
      (dispatch_keeps_timeout ADMIN_ID CommandStart Command_admin u).
Qed.

(** The claim fails for the cooldown: the press on the preset "1 day" is
    the selection itself, and the stored cooldown is one day right after
    it, with no confirmation in between. *)
Lemma preset_takes_effect_at_once :
  let opened := Examples.after
                  (take 1 Examples.pick_one_day) in
  let chosen := Examples.after Examples.pick_one_day in
  review_timeout_seconds (settings (bot_data opened)) = 0%Z
  ∧ review_timeout_seconds (settings (bot_data chosen)) = 86400%Z
  ∧ data_file chosen = Some (bot_data chosen).
Proof. vm_compute. repeat split. Qed.

(** ** Which handlers reset the conversation *)

Section Resets.
Variable ADMIN_ID : Z.

Ltac reset_handler :=
  apply clear_then_stable; unfold_handlers; frame.

Lemma cmd_start_resets message k w :
  storage (cmd_start message k w).2 = delete k (storage w).
Proof. unfold cmd_start. reset_handler. Qed.

Lemma cmd_admin_resets message k w :
  user_id (from_user message) = ADMIN_ID →
  storage (cmd_admin ADMIN_ID message k w).2 = delete k (storage w).
Proof.
  intros Hid. unfold cmd_admin. rewrite Hid, Z.eqb_refl. simpl.
  reset_handler.
Qed.

Lemma cmd_admin_refused message k w :
  user_id (from_user message) ≠ ADMIN_ID →
  storage (cmd_admin ADMIN_ID message k w).2 = storage w.
Proof.
  intros Hid. unfold cmd_admin. apply Z.eqb_neq in Hid. rewrite Hid. simpl.
  apply (stable_answer (same storage)).
Qed.

Lemma route_callback_resets callback w :
  resets_on_entry (cb_data callback) = true →
  storage (route_callback ADMIN_ID callback w).2 =
  delete (callback_key callback) (storage w).
Proof.
  unfold route_callback.
  destruct (cb_data callback); simpl; intros Hc; try discriminate;
    try rewrite Hc;
    [ unfold back_to_main_menu | unfold back_to_admin_panel
    | unfold show_pending_reviews | unfold moderate_review
    | unfold approve_review | unfold reject_review_confirm
    | unfold reject_final_noreason ];
    reset_handler.
Qed.

Lemma route_callback_leaves_state callback w :
  leaves_state_alone (cb_data callback) = true →
  storage (route_callback ADMIN_ID callback w).2 = storage w.
Proof.
  revert w. unfold route_callback.
  destruct (cb_data callback); simpl; intros w Hc; try discriminate;
    try (apply Z.ltb_lt in Hc; apply Z.leb_gt in Hc; by rewrite Hc);
    revert w Hc;
    match goal with |- ∀ w, _ → storage (?m w).2 = _ =>
      intros w _; revert w; change (stable (same storage) m) end;
    unfold_handlers; frame.
Qed.

End Resets.

(** C9 (as the code has it). The start command, the admin command (for the
    administrator), and the handlers of the main menu, the admin panel, the
    moderation list, inspect, approve, reject and reject-without-reason
    clear the conversation of the caller on entry: state idle, no scratch
    data.  The handlers of the group menus and of the restriction menus do
    not touch the conversation state at all. *)
Theorem state_reset_on_entry (ADMIN_ID : Z) :
  (∀ callback w,
     let k := callback_key callback in
     let w' := (route_callback ADMIN_ID callback w).2 in
     (resets_on_entry (cb_data callback) = true →
        storage w' = delete k (storage w) ∧ context_of k w' = idle)
     ∧ (leaves_state_alone (cb_data callback) = true →
        storage w' = storage w))
  ∧ (∀ message k w,
       let w' := (cmd_start message k w).2 in
       storage w' = delete k (storage w) ∧ context_of k w' = idle)
  ∧ (∀ message k w,
       let w' := (cmd_admin ADMIN_ID message k w).2 in
       (user_id (from_user message) = ADMIN_ID →
          storage w' = delete k (storage w) ∧ context_of k w' = idle)
       ∧ (user_id (from_user message) ≠ ADMIN_ID → storage w' = storage w)).
Proof.
  split; [|split].
  - intros callback w k w'. subst k w'. split.
    + intros Hc.
      pose proof (route_callback_resets ADMIN_ID callback w Hc) as Hs.
      split; [done|]. by eapply context_of_cleared.
    + apply route_callback_leaves_state.
  - intros message k w w'. subst w'.
    pose proof (cmd_start_resets message k w) as Hs.
    split; [done|]. by eapply context_of_cleared.
  - intros message k w w'. subst w'. split.
    + intros Hid.
      pose proof (cmd_admin_resets ADMIN_ID message k w Hid) as Hs.
      split; [done|]. by eapply context_of_cleared.
    + apply cmd_admin_refused.
Qed.

(** The claim fails for the group list: the administrator is asked for a
    rejection reason, opens "my groups" from an older menu, and is still in
    [waiting_for_rejection_reason] with the review id as scratch data. *)
Lemma groups_menu_keeps_rejection_flow :
  let before := Examples.after
                  (take 3 Examples.reject_then_groups) in
  let after := Examples.after
                 Examples.reject_then_groups in
  context_of (Examples.key_of Examples.admin) before =
    {| cur_state := Some waiting_for_rejection_reason;
       review_id_to_reject := Some 5%Z |}
  ∧ context_of (Examples.key_of Examples.admin) after =
    {| cur_state := Some waiting_for_rejection_reason;
       review_id_to_reject := Some 5%Z |}
  ∧ context_of (Examples.key_of Examples.admin) after ≠ idle.
Proof. vm_compute. repeat split. congruence. Qed.

(** ** Cooldown *)

Section Cooldown.
Variable ADMIN_ID : Z.
Variables CommandStart Command_admin : Message → bool.
Set Default Proof Using "Type".

Lemma start_review_within_cooldown callback k w last :
  user_id (cb_from_user callback) ≠ ADMIN_ID →
  (0 < review_timeout_seconds (settings (bot_data w)))%Z →
  user_last_review_time (bot_data w) !! str (user_id (cb_from_user callback))
    = Some last →
  truthy_float last = true →
  float_lt_int (float_sub (clock w) last)
    (review_timeout_seconds (settings (bot_data w))) = true →
  let r := start_review ADMIN_ID callback k w in
  bot_data r.2 = bot_data w ∧ data_file r.2 = data_file w
  ∧ storage r.2 = storage w
  ∧ outbox r.2 =
      outbox w ++
        match refusal_notice w last with
        | Some notice => [callback_answer (Some notice)]
        | None => []
        end
  ∧ (refusal_notice w last = None → r.1 = Raised OtherException).
Proof.
  intros Hid Hc Hlast Hnz Hnow. unfold start_review, refusal_notice.
  cbv zeta. exec.
  destruct (reviews_locked (settings (bot_data w))).
  - destruct (api_only (callback_answer (Some txt_reviews_paused)) w)
      as (H1 & H2 & H3 & H4).
    by repeat split.
  - apply Z.eqb_neq in Hid. apply Z.ltb_lt in Hc.
    rewrite Hid, Hc, Hlast, Hnz. cbn [negb andb]. exec. rewrite Hnow.
    destruct (float_of_int (review_timeout_seconds (settings (bot_data w))))
      as [timeout_float|]; simpl.
    2:{ rewrite app_nil_r. by repeat split. }
    exec.
    destruct (py_int (float_sub timeout_float (float_sub (clock w) last)))
      as [remaining_seconds|]; simpl.
    2:{ rewrite app_nil_r. by repeat split. }
    exec.
    destruct (api_only
                (callback_answer
                   (Some (txt_wait (humanize_time remaining_seconds)))) w)
      as (H1 & H2 & H3 & H4).
    by repeat split.
Qed.

Lemma start_review_administrator callback k w :
  user_id (cb_from_user callback) = ADMIN_ID →
  reviews_locked (settings (bot_data w)) = false →
  next_returns (replies w) →
  context_of k (start_review ADMIN_ID callback k w).2 =
    {| cur_state := Some waiting_for_review;
       review_id_to_reject := review_id_to_reject (context_of k w) |}.
Proof.
  intros Hid Hl Hnext. unfold start_review. cbv zeta. exec.
  rewrite Hl. rewrite Hid, Z.eqb_refl. cbn [negb andb].
  unfold api, state_set_state, modify_storage, bind, request, ret.
  cbv beta.
  destruct (replies w) as [|[v|e] rest]; simpl; try done;
    unfold context_of; simpl; by rewrite lookup_insert_eq.
Qed.

Lemma route_callback_keeps_cooldown callback :
  stable (same_data user_last_review_time) (route_callback ADMIN_ID callback).
Proof. unfold_handlers. destruct (cb_data callback); frame. Qed.

Lemma cooldown_entry_changes_on_acceptance u w uid :
  user_last_review_time (bot_data
      (dispatch ADMIN_ID CommandStart Command_admin u w).2) !! str uid ≠
  user_last_review_time (bot_data w) !! str uid →
  ∃ message body,
    u = on_message message
    ∧ user_id (from_user message) = uid
    ∧ submitted_text message = Some body
    ∧ (10 ≤ len body ≤ 50)%nat
    ∧ pending_reviews (bot_data
        (dispatch ADMIN_ID CommandStart Command_admin u w).2)
        !! message_id message = Some (review_of message body)
    ∧ user_last_review_time (bot_data
        (dispatch ADMIN_ID CommandStart Command_admin u w).2) !! str uid
        = Some (clock w).
Proof.
  intros Hch.
  assert (∀ m : M unit, stable (same_data user_last_review_time) m →
            dispatch ADMIN_ID CommandStart Command_admin u w = m w → False) as Hstable.
  { intros m Hm Heq. apply Hch. rewrite Heq.
    by rewrite (frame_data_eq user_last_review_time m w Hm). }
  destruct u as [message|callback|upd]; simpl in *.
  - unfold route_message in *. cbv zeta in *.
    destruct (CommandStart message).
    { destruct (Hstable (cmd_start message (message_key message)));
        [unfold cmd_start; frame|done]. }
    destruct (Command_admin message).
    { destruct (Hstable (cmd_admin ADMIN_ID message (message_key message)));
        [unfold cmd_admin; frame|done]. }
    rewrite run_state_get_data in *.
    destruct (cur_state (context_of (message_key message) w)) as [[|]|].
    + destruct (truthy_str (text message) || truthy_list (photo message)).
      2:{ destruct (Hstable (ret tt)); [frame|done]. }
      destruct (submitted_text message) as [body|] eqn:Htext.
      2:{ destruct (process_review_no_text ADMIN_ID message
                      (message_key message) w Htext) as (Hd & _).
          by rewrite Hd in Hch. }
      destruct (decide ((10 ≤ len body)%nat ∧ (len body ≤ 50)%nat))
        as [Hlen|Hlen].
      * destruct (process_review_accepted ADMIN_ID message
                    (message_key message) w body Htext Hlen) as (Hd & _ & _).
        rewrite Hd in *. simpl in *.
        destruct (decide (user_id (from_user message) = uid)) as [Heq|Hne].
        -- exists message, body. rewrite Heq in *.
           rewrite lookup_insert_eq.
           repeat split; try done; try apply Hlen. apply lookup_insert_eq.
        -- rewrite lookup_insert_ne in Hch; [done|].
           intros Hs. apply Hne. by apply (inj pretty).
      * destruct (process_review_turned_down ADMIN_ID message
                    (message_key message) w) as (Hd & _).
        { intros body' Hb. rewrite Htext in Hb. injection Hb as <-. lia. }
        by rewrite Hd in Hch.
    + destruct (truthy_str (text message)).
      * destruct (Hstable (process_rejection_reason ADMIN_ID message
                             (message_key message)));
          [unfold_handlers; frame|done].
      * destruct (Hstable (ret tt)); [frame|done].
    + destruct (Hstable (ret tt)); [frame|done].
  - destruct (Hstable (route_callback ADMIN_ID callback));
      [apply route_callback_keeps_cooldown|done].
  - destruct (Hstable (on_chat_member_updated ADMIN_ID upd));
      [unfold on_chat_member_updated; frame|done].
Qed.

End Cooldown.

(** C4 (as the code has it). The cooldown is checked when the submission
    dialogue is opened, on the elapsed time that the handler computes: the
    float difference of the clock reading and the stamp [last] of the last
    accepted submission (a stamp other than zero, which the code reads as
    "never").  With a cooldown [c > 0] and that difference below [c]:
    a non-administrator's press of "leave a review" is refused and changes
    nothing, with the remaining wait [int(c - elapsed)] in words when the
    lock is off and the lock notice when it is on (and with an exception
    instead of a notice where the remaining wait has no value); the
    administrator's press, with the lock off, opens the dialogue all the
    same.  And over all updates, the cooldown entry of a user changes only
    when a submission of that user is accepted, to the clock reading of
    that moment. *)
Theorem cooldown_gate (ADMIN_ID : Z)
    (CommandStart Command_admin : Message → bool) callback k w last :
  (0 < review_timeout_seconds (settings (bot_data w)))%Z →
  user_last_review_time (bot_data w) !! str (user_id (cb_from_user callback))
    = Some last →
  truthy_float last = true →
  float_lt_int (float_sub (clock w) last)
    (review_timeout_seconds (settings (bot_data w))) = true →
  let r := start_review ADMIN_ID callback k w in
  (user_id (cb_from_user callback) ≠ ADMIN_ID →
     bot_data r.2 = bot_data w ∧ data_file r.2 = data_file w
     ∧ storage r.2 = storage w
     ∧ outbox r.2 =
         outbox w ++
           match refusal_notice w last with
           | Some notice => [callback_answer (Some notice)]
           | None => []
           end
     ∧ (refusal_notice w last = None → r.1 = Raised OtherException))
  ∧ (user_id (cb_from_user callback) = ADMIN_ID →
     reviews_locked (settings (bot_data w)) = false →
     next_returns (replies w) →
     cur_state (context_of k r.2) = Some waiting_for_review)
  ∧ (∀ u w0 uid,
       user_last_review_time (bot_data
           (dispatch ADMIN_ID CommandStart Command_admin u w0).2) !! str uid
         ≠ user_last_review_time (bot_data w0) !! str uid →
       ∃ message body,
         u = on_message message
         ∧ user_id (from_user message) = uid
         ∧ ((photo message = [] ∧ text message = Some body)
            ∨ (photo message ≠ [] ∧ caption message = Some body))
         ∧ (10 ≤ length body ≤ 50)%nat
         ∧ r_text <$>
             pending_reviews
               (bot_data (dispatch ADMIN_ID CommandStart Command_admin u w0).2)
               !! message_id message = Some body
         ∧ user_last_review_time
             (bot_data (dispatch ADMIN_ID CommandStart Command_admin u w0).2)
             !! str uid = Some (clock w0)).
Proof.
  intros Hc Hlast Hnz Hnow r. subst r. split; [|split].
  - intros Hid. by apply start_review_within_cooldown.
  - intros Hid Hl Hnext.
    by rewrite (start_review_administrator ADMIN_ID callback k w Hid Hl Hnext).
  - intros u w0 uid Hch.
    destruct (cooldown_entry_changes_on_acceptance ADMIN_ID CommandStart
                Command_admin u w0 uid Hch)
      as (message & body & Hu & Hid & Htext & Hlen & Hrecord & Hstamp).
    exists message, body. apply submitted_text_spec in Htext.
    split; [done|]. split; [done|]. split; [done|]. split; [done|].
    split; [|done]. by rewrite Hrecord.
Qed.

Lemma cooldown_gate_witness :
  let w := Examples.two_hours_later in
  (0 < review_timeout_seconds (settings (bot_data w)))%Z
  ∧ user_last_review_time (bot_data w) !! str 41 = Some (Examples.seconds 110)
  ∧ clock w = Examples.seconds 7310
  ∧ float_sub (clock w) (Examples.seconds 110) = Examples.seconds 7200
  ∧ outbox
      (start_review Examples.ADMIN
         (Examples.button Examples.alice leave_review)
         (Examples.key_of Examples.alice) w).2 =
    outbox w ++ [callback_answer (Some (txt_wait (t_hours 22)))].
Proof.
  split; [reflexivity|]. split; [reflexivity|]. split; [reflexivity|].
  split; [vm_compute; reflexivity|].
  apply (cooldown_gate Examples.ADMIN Examples.CommandStart
           Examples.Command_admin
           (Examples.button Examples.alice leave_review)
           (Examples.key_of Examples.alice) Examples.two_hours_later
           (Examples.seconds 110)).
  - reflexivity.
  - reflexivity.
  - reflexivity.
  - vm_compute. reflexivity.
  - intros H. discriminate H.
Defined.

(** The claim fails once the dialogue is open: the text of a user who is
    already in [waiting_for_review] is stored without a look at the
    cooldown.  Alice's second text arrives 30 seconds after her first was
    accepted, with the cooldown at one day, and becomes a pending record. *)
Lemma second_submission_within_cooldown :
  let before := Examples.after
                  (take 4 Examples.second_within_cooldown) in
  let after := Examples.after
                 Examples.second_within_cooldown in
  review_timeout_seconds (settings (bot_data before)) = 86400%Z
  ∧ user_last_review_time (bot_data before) !! str 41
      = Some (Examples.seconds 110)
  ∧ pending_reviews (bot_data before) !! 9%Z = None
  ∧ float_sub (Examples.seconds 140) (Examples.seconds 110)
      = Examples.seconds 30
  ∧ r_user_id <$> pending_reviews (bot_data after) !! 9%Z = Some 41%Z
  ∧ user_last_review_time (bot_data after) !! str 41
      = Some (Examples.seconds 140).
Proof. vm_compute. repeat split. Qed.

(** ** The theorems at concrete inputs *)

Lemma approve_review_notice_failed_witness :
  let w := deliver Examples.approve_notice_fails
             (Examples.after Examples.approve_setup) in
  let w' := (approve_review 5 (Examples.button Examples.admin (approve_ 5))
               (Examples.key_of Examples.admin) w).2 in
  pending_reviews (bot_data w) !! 5%Z = Some Examples.alice_review
  ∧ main_group_id (bot_data w) = Some (-1001)%Z
  ∧ replies w = [Returns None; Raises OtherException]
  ∧ pending_reviews (bot_data w') = pending_reviews (bot_data w)
  ∧ ∃ more,
      outbox w' =
        outbox w ++
          forward_message (-1001) 41 5
          :: send_message 41 txt_approved_published
          :: callback_answer (Some (txt_forward_error OtherException))
          :: more.
Proof.
  split; [reflexivity|]. split; [reflexivity|]. split; [reflexivity|].
  apply (approve_review_notice_failed 5 Examples.alice_review (-1001)
           (Examples.button Examples.admin (approve_ 5))
           (Examples.key_of Examples.admin)
           (deliver Examples.approve_notice_fails
              (Examples.after Examples.approve_setup))
           None OtherException []).
  - reflexivity.
  - reflexivity.
  - intros H. discriminate H.
  - reflexivity.
  - exact I.
Defined.

Lemma reject_removes_review_witness :
  let w := Examples.after
             (take 3 Examples.reject_then_groups) in
  let k := Examples.key_of Examples.admin in
  pending_reviews (bot_data w) !! 5%Z = Some Examples.alice_review
  ∧ review_id_to_reject (context_of k w) = Some 5%Z
  ∧ (∀ callback,
       pending_reviews (bot_data (reject_final_noreason 5 callback k w).2)
         !! 5%Z = None)
  ∧ (∀ message,
       pending_reviews
         (bot_data (process_rejection_reason Examples.ADMIN message k w).2)
         !! 5%Z = None).
Proof.
  split; [reflexivity|]. split; [reflexivity|].
  destruct (reject_removes_review Examples.ADMIN 5 Examples.alice_review
              (Examples.after
                 (take 3 Examples.reject_then_groups)) eq_refl)
    as [Hnoreason Hreason].
  split.
  - intros callback. apply Hnoreason.
  - intros message. by apply Hreason.
Defined.

Lemma process_review_length_check_witness :
  let k := Examples.key_of Examples.alice in
  let w := Examples.initial in
  let picture := Examples.photo_message 5 Examples.alice "Nice place" in
  let long :=
    Examples.text_message 6 Examples.alice
      "The food was fine but the waiter was a little slow." in
  (length (Examples.code_points "Nice place") = 10%nat
   ∧ pending_reviews
       (bot_data (process_review Examples.ADMIN picture k w).2) !! 5%Z =
     Some {| r_user_id := 41;
             r_username := Some (Examples.code_points "alice");
             r_first_name := Examples.code_points "alice";
             r_text := Examples.code_points "Nice place";
             r_photo_file_id := Some (Examples.code_points "large") |}
   ∧ user_last_review_time
       (bot_data (process_review Examples.ADMIN picture k w).2) !! str 41 =
     Some (clock w))
  ∧ (length
       (Examples.code_points
          "The food was fine but the waiter was a little slow.")
     = 51%nat
     ∧ bot_data (process_review Examples.ADMIN long k w).2 = bot_data w
     ∧ outbox (process_review Examples.ADMIN long k w).2 =
         [message_answer 41 txt_err_length None]).
Proof.
  split.
  - split; [reflexivity|].
    destruct (process_review_length_check Examples.ADMIN
                (Examples.photo_message 5 Examples.alice "Nice place")
                (Examples.key_of Examples.alice) Examples.initial
                (Examples.code_points "Nice place")) as [Haccepted _].
    { right. split; [discriminate|reflexivity]. }
    destruct Haccepted as (Hrecord & Hstamp & _).
    { vm_compute. lia. }
    split; [exact Hrecord|exact Hstamp].
  - split; [reflexivity|].
    destruct (process_review_length_check Examples.ADMIN
                (Examples.text_message 6 Examples.alice
                   "The food was fine but the waiter was a little slow.")
                (Examples.key_of Examples.alice) Examples.initial
                (Examples.code_points
                   "The food was fine but the waiter was a little slow."))
      as [_ Hrefused].
    { left. split; reflexivity. }
    destruct Hrefused as (Hdata & _ & _ & Hout).
    { right. vm_compute. lia. }
    split; [exact Hdata|exact Hout].
Defined.

Lemma process_review_keying_witness :
  let message :=
    Examples.text_message 5 Examples.alice "Great service, loved it!" in
  let body := Examples.code_points "Great service, loved it!" in
  submitted_text message = Some body
  ∧ pending_reviews
      (bot_data (process_review Examples.ADMIN message
                   (Examples.key_of Examples.alice) Examples.initial).2) =
    <[5%Z := review_of message body]>
      (pending_reviews (bot_data Examples.initial)).
Proof.
  split; [reflexivity|].
  apply (process_review_keying Examples.ADMIN
           (Examples.text_message 5 Examples.alice "Great service, loved it!")
           (Examples.key_of Examples.alice) Examples.initial
           (Examples.code_points "Great service, loved it!")).
  - reflexivity.
  - vm_compute. lia.
Defined.

(** The claim fails on identifiers from different chats: Alice's review is
    pending under message id 5; Bob's accepted text, message 5 of another
    chat, takes its place, and no pending record of Alice is left. *)
Lemma process_review_replaces_other_submitter :
  let before := Examples.after
                  (take 3 Examples.alice_then_bob) in
  let after := Examples.after Examples.alice_then_bob in
  pending_reviews (bot_data before) !! 5%Z = Some Examples.alice_review
  ∧ r_user_id Examples.alice_review = 41%Z
  ∧ r_user_id <$> pending_reviews (bot_data after) !! 5%Z = Some 42%Z
  ∧ size (pending_reviews (bot_data after)) = 1%nat.
Proof. vm_compute. repeat split. Qed.

Lemma on_chat_member_updated_spec_witness :
  let w := Examples.after Examples.approve_setup in
  let w' := (on_chat_member_updated Examples.ADMIN Examples.removed w).2 in
  let joined :=
    (on_chat_member_updated Examples.ADMIN Examples.joined
       Examples.initial).2 in
  (¬ tracked (-1001) (bot_data Examples.initial)
   ∧ groups (bot_data joined) =
       [{| g_id := -1001; g_title := chat_title Examples.supergroup |}])
  ∧ (tracked (-1001) (bot_data w)
     ∧ main_group_id (bot_data w) = Some (-1001)%Z
     ∧ groups (bot_data w') = []
     ∧ main_group_id (bot_data w') = None).
Proof.
  assert (¬ tracked (-1001) (bot_data Examples.initial)) as Hn.
  { intros (g & Hg & _). by apply elem_of_nil in Hg. }
  assert (tracked (-1001)
            (bot_data
               (Examples.after Examples.approve_setup)))
    as Ht.
  { eexists. split; [apply list_elem_of_here|reflexivity]. }
  split.
  - split; [exact Hn|].
    destruct (on_chat_member_updated_spec Examples.ADMIN Examples.joined
                Examples.initial) as (Hjoin & _ & _).
    destruct (Hjoin eq_refl (or_introl eq_refl) Hn) as (Hg & _ & _).
    exact Hg.
  - split; [exact Ht|]. split; [reflexivity|].
    destruct (on_chat_member_updated_spec Examples.ADMIN Examples.removed
                (Examples.after Examples.approve_setup))
      as (_ & Hleave & _).
    destruct (Hleave eq_refl (or_intror eq_refl) Ht) as (Hg & _ & Hm).
    split; [exact Hg | exact Hm].
Defined.

(** * Further properties of the handlers *)

(** ** Durations *)

(** Outside the three presets, a positive duration is shown in its largest
    unit that is not zero, rounded down: days from one day on (hours are
    dropped), hours below a day, minutes below an hour, and "0 minutes"
    below a minute. *)
Theorem humanize_time_units (seconds : Z) :
  (0 < seconds)%Z →
  seconds ≠ 86400%Z → seconds ≠ 172800%Z → seconds ≠ 604800%Z →
  match humanize_time seconds with
  | t_days d =>
      (86400 ≤ seconds ∧ 0 < d ∧ 86400 * d ≤ seconds < 86400 * (d + 1))%Z
  | t_hours h =>
      (seconds < 86400 ∧ 0 < h ∧ 3600 * h ≤ seconds < 3600 * (h + 1))%Z
  | t_minutes m =>
      (seconds < 3600 ∧ 0 ≤ m ∧ 60 * m ≤ seconds < 60 * (m + 1))%Z
  | _ => False
  end.
Proof.
  intros Hpos H1 H2 H3. unfold humanize_time.
  apply Z.eqb_neq in H1, H2, H3.
  assert ((seconds =? 0)%Z = false) as H0 by (apply Z.eqb_neq; lia).
  rewrite H0, H1, H2, H3. cbv zeta.
  destruct (0 <? seconds `div` 86400)%Z eqn:Hd.
  { apply Z.ltb_lt in Hd. Z.div_mod_to_equations. lia. }
  apply Z.ltb_ge in Hd.
  destruct (0 <? (seconds `mod` 86400) `div` 3600)%Z eqn:Hh.
  { apply Z.ltb_lt in Hh. Z.div_mod_to_equations. lia. }
  apply Z.ltb_ge in Hh. Z.div_mod_to_equations. lia.
Qed.

Lemma humanize_time_units_witness :
  (0 < 79200)%Z ∧ humanize_time 79200 = t_hours 22
  ∧ (3600 * 22 ≤ 79200 < 3600 * (22 + 1))%Z.
Proof.
  assert (humanize_time 79200 = t_hours 22) as E by (vm_compute; reflexivity).
  split; [lia|]. split; [exact E|].
  pose proof (humanize_time_units 79200) as H. rewrite E in H.
  apply H; lia.
Defined.

(** ** The end of the cooldown *)

(** With the lock off, the press of a user with a recorded stamp opens the
    dialogue as soon as the elapsed time that the handler computes, the
    float difference of the clock reading and the stamp, is not below the
    cooldown (once the prompt is delivered): the prompt is the one request,
    the document is as before. *)
Theorem start_review_after_cooldown (ADMIN_ID : Z) callback k w last :
  reviews_locked (settings (bot_data w)) = false →
  user_last_review_time (bot_data w) !! str (user_id (cb_from_user callback))
    = Some last →
  float_lt_int (float_sub (clock w) last)
    (review_timeout_seconds (settings (bot_data w))) = false →
  next_returns (replies w) →
  let w' := (start_review ADMIN_ID callback k w).2 in
  bot_data w' = bot_data w ∧ data_file w' = data_file w
  ∧ context_of k w' =
      {| cur_state := Some waiting_for_review;
         review_id_to_reject := review_id_to_reject (context_of k w) |}
  ∧ outbox w' =
      outbox w ++ [message_edit_text txt_write_review (Some [[press main_menu]])].
Proof.
  intros Hl Hlast Hnow Hnext. unfold start_review. cbv zeta. exec.
  rewrite Hl, Hlast.
  match goal with |- context [(if negb _ && _ then _ else ?open) w] =>
    set (open_dialogue := open)
  end.
  assert (let w' := (open_dialogue w).2 in
          bot_data w' = bot_data w ∧ data_file w' = data_file w
          ∧ context_of k w' =
              {| cur_state := Some waiting_for_review;
                 review_id_to_reject := review_id_to_reject (context_of k w) |}
          ∧ outbox w' =
              outbox w ++
                [message_edit_text txt_write_review (Some [[press main_menu]])])
    as Hopen.
  { subst open_dialogue.
    unfold api, state_set_state, modify_storage, bind, request, ret.
    cbv beta.
    destruct (replies w) as [|[v|e] rest]; simpl; try done;
      unfold context_of; simpl; by rewrite lookup_insert_eq. }
  destruct (negb _ && _); [|exact Hopen].
  destruct (truthy_float last); [|exact Hopen].
  exec. rewrite Hnow. exact Hopen.
Qed.

(** The stamp is 1e-6 and the clock reads 86400.000001, both as floats:
    in exact arithmetic the clock is before the stamp plus one day, the
    float difference is 86400.0, and the dialogue opens. *)
Lemma start_review_after_cooldown_witness :
  let last := S754_finite false 4722366482869645 (-72) in
  let now := S754_finite false 5937362790059119 (-36) in
  let w := Examples.cooldown_world last now in
  let callback := Examples.button Examples.alice leave_review in
  (5937362790059119 * 2 ^ 36 < 4722366482869645 + 86400 * 2 ^ 72)%Z
  ∧ float_sub now last = Examples.seconds 86400
  ∧ cur_state
      (context_of (Examples.key_of Examples.alice)
         (start_review Examples.ADMIN callback
            (Examples.key_of Examples.alice) w).2)
    = Some waiting_for_review.
Proof.
  split; [vm_compute; reflexivity|]. split; [vm_compute; reflexivity|].
  destruct (start_review_after_cooldown Examples.ADMIN
              (Examples.button Examples.alice leave_review)
              (Examples.key_of Examples.alice)
              (Examples.cooldown_world
                 (S754_finite false 4722366482869645 (-72))
                 (S754_finite false 5937362790059119 (-36)))
              (S754_finite false 4722366482869645 (-72)))
    as (_ & _ & Hk & _).
  - reflexivity.
  - reflexivity.
  - vm_compute. reflexivity.
  - exact I.
  - cbv zeta. rewrite Hk. reflexivity.
Defined.

(** The remaining wait is a rounded difference as well.  The stamp is 0.3
    and the clock reads 3600.3: the float difference is 3600.0, a hair
    less than the exact one, and the notice says 23 hours. *)
Lemma start_review_rounded_wait :
  let last := S754_finite false 5404319552844595 (-54) in
  let now := S754_finite false 7917143426963866 (-41) in
  let w := Examples.cooldown_world last now in
  (3600 * 2 ^ 54 < 7917143426963866 * 2 ^ 13 - 5404319552844595)%Z
  ∧ float_sub now last = Examples.seconds 3600
  ∧ outbox
      (start_review Examples.ADMIN
         (Examples.button Examples.alice leave_review)
         (Examples.key_of Examples.alice) w).2 =
    [callback_answer (Some (txt_wait (t_hours 23)))].
Proof. vm_compute. repeat split. Qed.

(** ** Choosing the publish target *)

(** Making a chat the publish target stores its id, whether or not the
    chat is in the registry, and writes the file; the rest of the document
    stays.  When the chat is the target already, only an alert is sent. *)
Theorem set_main_group_spec group_id callback w :
  let w' := (set_main_group group_id callback w).2 in
  bot_data w' = set_main_group_id (Some group_id) (bot_data w)
  ∧ (main_group_id (bot_data w) = Some group_id →
       bot_data w' = bot_data w ∧ data_file w' = data_file w
       ∧ outbox w' = outbox w ++ [callback_answer (Some txt_already_main)])
  ∧ (main_group_id (bot_data w) ≠ Some group_id →
       data_file w' = Some (bot_data w')
       ∧ ∃ more,
           outbox w' =
             outbox w ++ callback_answer (Some txt_main_changed) :: more).
Proof.
  cbv zeta. unfold set_main_group. rewrite run_get_bot_data.
  case_bool_decide as Hm.
  - destruct (api_only (callback_answer (Some txt_already_main)) w)
      as (Hd & Hf & _ & Ho).
    split; [|split; [done|done]].
    rewrite Hd. destruct (bot_data w); simpl in *. by rewrite Hm.
  - exec. split; [|split; [done|]].
    + unfold show_my_groups. by by_frame bot_data.
    + intros _. split.
      * unfold show_my_groups. by_frame data_file. simpl. f_equal.
        symmetry. by by_frame bot_data.
      * match goal with |- context [bind ?m ?k ?w1] =>
          assert (∀ w2, outbox w2 = outbox w ++
                          [callback_answer (Some txt_main_changed)] →
                    ∃ more, outbox (show_my_groups callback w2).2 =
                      outbox w ++
                        callback_answer (Some txt_main_changed) :: more)
            as Htail end.
        { intros w2 Hw2.
          destruct (sent_more_show_my_groups callback w2) as [more Hmore].
          exists more. by rewrite Hmore, Hw2, <- app_assoc. }
        unfold api, bind, request, ret. cbv beta. simpl.
        destruct (replies w) as [|[v|e] rest]; simpl;
          first [ by apply Htail | by exists [] ].
Qed.

(** ** The registry across updates *)

Section Registry.
Variable ADMIN_ID : Z.

Lemma on_chat_member_updated_data update w :
  bot_data (on_chat_member_updated ADMIN_ID update w).2 =
  member_event_data update (bot_data w).
Proof.
  unfold on_chat_member_updated, member_event_data. cbv zeta.
  destruct (is_group_chat (chat_type (upd_chat update))); cbn [negb];
    [|done].
  exec.
  destruct (new_status update);
    try match goal with |- context [existsb ?f ?l] =>
          destruct (existsb f l) end;
    cbn [negb]; exec; by by_frame bot_data.
Qed.

Lemma filter_other_ids chat (gs : list Group) :
  g_id <$> List.filter (λ g, negb (g_id g =? chat)%Z) gs =
  List.filter (λ i, negb (i =? chat)%Z) (g_id <$> gs).
Proof.
  induction gs as [|g gs IH]; [done|]. simpl.
  destruct (g_id g =? chat)%Z; simpl; [exact IH|].
  f_equal. exact IH.
Qed.

Lemma NoDup_filter_ids (f : Z → bool) (l : list Z) :
  NoDup l → NoDup (List.filter f l).
Proof.
  induction 1 as [|x l Hx Hl IH]; simpl; [constructor|].
  destruct (f x); [|done]. constructor; [|done].
  intros Hin. apply Hx. apply list_elem_of_In, filter_In in Hin as [Hin _].
  by apply list_elem_of_In.
Qed.

Lemma untracked_not_in chat d :
  existsb (λ g, (g_id g =? chat)%Z) (groups d) = false →
  chat ∉ g_id <$> groups d.
Proof.
  intros Hex Hin. apply list_elem_of_fmap in Hin as (g & -> & Hg).
  apply not_true_iff_false in Hex. apply Hex, is_in_list_tracked.
  by exists g.
Qed.

Lemma member_event_unique update d :
  unique_groups d → unique_groups (member_event_data update d).
Proof.
  unfold unique_groups, member_event_data. cbv zeta. intros Hd.
  destruct (is_group_chat (chat_type (upd_chat update))); cbn [negb];
    [|done].
  destruct (new_status update); try done;
    match goal with |- context [existsb ?f ?l] =>
      destruct (existsb f l) eqn:Hex end; cbn [negb]; try done;
    try (simpl; rewrite fmap_app; apply NoDup_app; split; [done|];
         split; [|apply NoDup_singleton];
         intros i Hi Hi'; apply list_elem_of_singleton in Hi'; subst i;
         by apply (untracked_not_in _ _ Hex));
    case_bool_decide; simpl; rewrite filter_other_ids;
    by apply NoDup_filter_ids.
Qed.

Lemma tracked_after_filter chat g d d' :
  g ≠ chat → tracked g d →
  groups d' = List.filter (λ x, negb (g_id x =? chat)%Z) (groups d) →
  tracked g d'.
Proof.
  intros Hne (x & Hx & Hid) Hd'. exists x. split; [|done].
  rewrite Hd'. apply list_elem_of_In, filter_In.
  split; [by apply list_elem_of_In|].
  apply negb_true_iff, Z.eqb_neq. congruence.
Qed.

Lemma member_event_target update d :
  target_tracked d → target_tracked (member_event_data update d).
Proof.
  unfold target_tracked, member_event_data. cbv zeta. intros Hd.
  destruct (is_group_chat (chat_type (upd_chat update))); cbn [negb];
    [|done].
  destruct (new_status update); try done;
    match goal with |- context [existsb ?f ?l] =>
      destruct (existsb f l) eqn:Hex end; cbn [negb]; try done.
  - simpl. intros g Hg. destruct (Hd g Hg) as (x & Hx & Hid).
    exists x. split; [|done]. simpl. apply elem_of_app. by left.
  - simpl. intros g Hg. destruct (Hd g Hg) as (x & Hx & Hid).
    exists x. split; [|done]. simpl. apply elem_of_app. by left.
  - case_bool_decide as Hm; simpl in *; [done|].
    intros g Hg. eapply (tracked_after_filter (chat_id (upd_chat update)));
      [congruence|by apply Hd|done].
  - case_bool_decide as Hm; simpl in *; [done|].
    intros g Hg. eapply (tracked_after_filter (chat_id (upd_chat update)));
      [congruence|by apply Hd|done].
Qed.

End Registry.

(** Every update keeps the chat ids of the registry distinct. *)
Theorem dispatch_unique_groups (ADMIN_ID : Z)
    (CommandStart Command_admin : Message → bool) u w :
  unique_groups (bot_data w) →
  unique_groups (bot_data (dispatch ADMIN_ID CommandStart Command_admin u w).2).
Proof.
  intros Hw. destruct u as [message|callback|upd].
  - unfold unique_groups.
    by rewrite (dispatch_keeps_groups ADMIN_ID CommandStart Command_admin
        (on_message message)).
  - unfold unique_groups.
    by rewrite (dispatch_keeps_groups ADMIN_ID CommandStart Command_admin
        (on_callback_query callback)).
  - simpl. rewrite on_chat_member_updated_data.
    by apply member_event_unique.
Qed.

Lemma set_main_group_data group_id callback w :
  bot_data (set_main_group group_id callback w).2 =
  set_main_group_id (Some group_id) (bot_data w).
Proof.
  unfold set_main_group, show_my_groups. rewrite run_get_bot_data.
  case_bool_decide as Hm.
  - destruct (api_only (callback_answer (Some txt_already_main)) w)
      as (Hd & _).
    rewrite Hd. destruct (bot_data w); simpl in *. by rewrite Hm.
  - exec. by by_frame bot_data.
Qed.

Lemma target_tracked_same d d' :
  groups d' = groups d → main_group_id d' = main_group_id d →
  target_tracked d → target_tracked d'.
Proof.
  intros Hg Hm Ht g Hmain. rewrite Hm in Hmain.
  destruct (Ht g Hmain) as (x & Hx & Hid). exists x. by rewrite Hg.
Qed.

(** The publish target stays a chat of the registry over every update,
    as long as a press of "make this the publish target" names a chat of
    the registry (the handler itself does not check it). *)
Theorem dispatch_target_tracked (ADMIN_ID : Z)
    (CommandStart Command_admin : Message → bool) u w :
  target_tracked (bot_data w) →
  setmain_names_tracked u (bot_data w) →
  target_tracked (bot_data
      (dispatch ADMIN_ID CommandStart Command_admin u w).2).
Proof.
  intros Ht Hs. destruct u as [message|callback|upd].
  - apply (target_tracked_same (bot_data w)); [| |done].
    + by apply (dispatch_keeps_groups ADMIN_ID CommandStart Command_admin
        (on_message message)).
    + by apply (dispatch_keeps_main_group ADMIN_ID CommandStart Command_admin
        (on_message message)).
  - destruct (cb_data callback) eqn:Hdata;
      try (apply (target_tracked_same (bot_data w)); [| |done];
           [ by apply (dispatch_keeps_groups ADMIN_ID CommandStart Command_admin
                         (on_callback_query callback))
           | apply
               (dispatch_keeps_main_group ADMIN_ID CommandStart Command_admin
                      (on_callback_query callback)); [done|];
             intros cb g [= <-]; congruence ]).
    simpl. unfold route_callback. rewrite Hdata.
    rewrite set_main_group_data. intros g [= <-].
    destruct (Hs callback group_id eq_refl Hdata) as (x & Hx & Hid).
    by exists x.
  - simpl. rewrite on_chat_member_updated_data.
    by apply member_event_target.
Qed.

Lemma dispatch_registry_witness :
  let w := Examples.after Examples.approve_setup in
  let u := on_my_chat_member Examples.removed in
  let w' := (Examples.handle u w).2 in
  (unique_groups (bot_data w) ∧ target_tracked (bot_data w)
   ∧ setmain_names_tracked u (bot_data w))
  ∧ unique_groups (bot_data w').
Proof.
  assert (unique_groups
            (bot_data
               (Examples.after Examples.approve_setup)))
    as Hu.
  { unfold unique_groups. vm_compute. apply NoDup_singleton. }
  split.
  - split; [exact Hu|]. split.
    + intros g Hg. vm_compute in Hg. injection Hg as <-.
      eexists. split; [apply list_elem_of_here|reflexivity].
    + intros callback g Hq. discriminate Hq.
  - apply (dispatch_unique_groups Examples.ADMIN Examples.CommandStart
           Examples.Command_admin
             (on_my_chat_member Examples.removed)
             (Examples.after Examples.approve_setup)).
    exact Hu.
Defined.

Lemma dispatch_target_tracked_witness :
  let w := Examples.after Examples.approve_setup in
  let u := on_my_chat_member Examples.removed in
  target_tracked (bot_data w)
  ∧ target_tracked (bot_data (Examples.handle u w).2).
Proof.
  assert (target_tracked
            (bot_data
               (Examples.after Examples.approve_setup)))
    as Ht.
  { intros g Hg. vm_compute in Hg. injection Hg as <-.
    eexists. split; [apply list_elem_of_here|reflexivity]. }
  split; [exact Ht|].
  apply (dispatch_target_tracked Examples.ADMIN Examples.CommandStart
           Examples.Command_admin
           (on_my_chat_member Examples.removed)
           (Examples.after Examples.approve_setup)).
  - exact Ht.
  - intros callback g Hq. discriminate Hq.
Defined.

Lemma filter_untracked chat d :
  ¬ tracked chat d →
  List.filter (λ g, negb (g_id g =? chat)%Z) (groups d) = groups d.
Proof.
  intros Hn. apply forallb_filter_id, forallb_forall. intros g Hg.
  apply negb_true_iff, Z.eqb_neq. intros Hid. apply Hn.
  exists g. split; [by apply list_elem_of_In|done].
Qed.

(** A group chat that is not in the registry, joined and then left:
    the registry is what it was before, whatever happened in between to
    the rest of the world. *)
Theorem join_then_leave_restores (ADMIN_ID : Z) join leave w w2 :
  is_group_chat (chat_type (upd_chat join)) = true →
  upd_chat leave = upd_chat join →
  new_status join = administrator ∨ new_status join = member →
  new_status leave = left ∨ new_status leave = kicked →
  ¬ tracked (chat_id (upd_chat join)) (bot_data w) →
  bot_data w2 = bot_data (on_chat_member_updated ADMIN_ID join w).2 →
  groups (bot_data (on_chat_member_updated ADMIN_ID leave w2).2) =
  groups (bot_data w).
Proof.
  intros Hg Hc Hj Hl Hn Hw2.
  rewrite on_chat_member_updated_data, Hw2.
  rewrite (member_event_join ADMIN_ID join w Hg Hj Hn).
  match goal with |- context [member_event_data leave ?d] =>
    assert (existsb (λ g, (g_id g =? chat_id (upd_chat join))%Z) (groups d)
            = true) as Hex
  end.
  { apply is_in_list_tracked.
    exists {| g_id := chat_id (upd_chat join);
              g_title := chat_title (upd_chat join) |}.
    split; [|reflexivity].
    simpl. apply elem_of_app. right. apply list_elem_of_here. }
  unfold member_event_data. rewrite Hc, Hg. cbn [negb]. cbv zeta.
  rewrite Hex. simpl.
  assert (List.filter (λ g, negb (g_id g =? chat_id (upd_chat join))%Z)
            (groups (bot_data w) ++
               [{| g_id := chat_id (upd_chat join);
                   g_title := chat_title (upd_chat join) |}])
          = groups (bot_data w)) as Hf.
  { rewrite List.filter_app. simpl. rewrite Z.eqb_refl. simpl.
    rewrite app_nil_r. by apply filter_untracked. }
  destruct Hl as [-> | ->]; case_bool_decide; simpl; exact Hf.
Qed.

Lemma join_then_leave_restores_witness :
  let w := Examples.initial in
  let w1 := (on_chat_member_updated Examples.ADMIN Examples.joined w).2 in
  groups (bot_data w1) ≠ []
  ∧ groups
      (bot_data (on_chat_member_updated Examples.ADMIN Examples.removed w1).2)
    = groups (bot_data w).
Proof.
  split; [intros H; discriminate H|].
  apply (join_then_leave_restores Examples.ADMIN Examples.joined
           Examples.removed Examples.initial).
  - reflexivity.
  - reflexivity.
  - left. reflexivity.
  - right. reflexivity.
  - intros (g & Hg & _). by apply elem_of_nil in Hg.
  - reflexivity.
Defined.

(** ** Handlers that only read *)

Section ReadOnly.
Variable ADMIN_ID : Z.

Lemma route_callback_keeps_document callback :
  read_only_payload (cb_data callback) = true →
  stable (same bot_data) (route_callback ADMIN_ID callback)
  ∧ stable (same data_file) (route_callback ADMIN_ID callback).
Proof.
  intros Hc. unfold_handlers.
  destruct (cb_data callback); try discriminate Hc; split; frame.
Qed.

End ReadOnly.

(** The menus, the inspection of a review, the confirmation questions, the
    "leave a group" action, the opening of the submission dialogue, the
    request for a rejection reason and the two commands never change the
    document, in memory or on disk, whatever the platform answers. *)
Theorem read_only_handlers (ADMIN_ID : Z) :
  (∀ callback w,
     read_only_payload (cb_data callback) = true →
     let w' := (route_callback ADMIN_ID callback w).2 in
     bot_data w' = bot_data w ∧ data_file w' = data_file w)
  ∧ (∀ message k w,
       let w' := (cmd_start message k w).2 in
       bot_data w' = bot_data w ∧ data_file w' = data_file w)
  ∧ (∀ message k w,
       let w' := (cmd_admin ADMIN_ID message k w).2 in
       bot_data w' = bot_data w ∧ data_file w' = data_file w).
Proof.
  split; [|split].
  - intros callback w Hc w'. subst w'.
    destruct (route_callback_keeps_document ADMIN_ID callback Hc) as [Hd Hf].
    split; [apply Hd | apply Hf].
  - intros message k w w'. subst w'. split.
    + assert (stable (same bot_data) (cmd_start message k)) as H
        by (unfold cmd_start; frame).
      apply H.
    + assert (stable (same data_file) (cmd_start message k)) as H
        by (unfold cmd_start; frame).
      apply H.
  - intros message k w w'. subst w'. split.
    + assert (stable (same bot_data) (cmd_admin ADMIN_ID message k)) as H
        by (unfold cmd_admin; frame).
      apply H.
    + assert (stable (same data_file) (cmd_admin ADMIN_ID message k)) as H
        by (unfold cmd_admin; frame).
      apply H.
Qed.

(** ** Acting on a review that is no longer pending *)

Lemma set_pending_reviews_same d :
  set_pending_reviews (pending_reviews d) d = d.
Proof. by destruct d. Qed.

Lemma pop_missing i d :
  pending_reviews d !! i = None →
  set_pending_reviews (delete i (pending_reviews d)) d = d.
Proof.
  intros H. rewrite (delete_id _ _ H). apply set_pending_reviews_same.
Qed.

Section Stale.
Variable ADMIN_ID : Z.

Ltac only_api :=
  unfold only_notice;
  match goal with |- context [(api ?c ?w0).2] =>
    destruct (api_only c w0) as (Hd & Hf & Hs & Ho);
    rewrite Hd, Hf, Hs, Ho
  end; simpl; try done.

Lemma approve_review_stale i callback k w :
  pending_reviews (bot_data w) !! i = None →
  only_notice k (callback_answer (Some txt_already_processed)) w
    (approve_review i callback k w).2.
Proof.
  intros Hi. unfold approve_review, state_clear. exec. simpl. rewrite Hi.
  only_api. by rewrite (pop_missing i _ Hi).
Qed.

Lemma reject_final_noreason_stale i callback k w :
  pending_reviews (bot_data w) !! i = None →
  only_notice k (callback_answer (Some txt_already_handled)) w
    (reject_final_noreason i callback k w).2.
Proof.
  intros Hi. unfold reject_final_noreason, state_clear. exec. simpl.
  rewrite Hi. only_api. by rewrite (pop_missing i _ Hi).
Qed.

Lemma process_rejection_reason_stale message k w :
  (∀ i, review_id_to_reject (context_of k w) = Some i →
        pending_reviews (bot_data w) !! i = None) →
  only_notice k
    (message_answer (chat_id (message_chat message)) txt_was_processed None)
    w (process_rejection_reason ADMIN_ID message k w).2.
Proof.
  intros Hi. unfold process_rejection_reason, state_clear, answer.
  exec. cbv zeta.
  destruct (review_id_to_reject (context_of k w)) as [i|] eqn:Hk.
  - specialize (Hi i eq_refl). exec. simpl. rewrite Hi.
    only_api. by rewrite (pop_missing i _ Hi).
  - exec. only_api.
Qed.

End Stale.

(** Approving or rejecting a review that is not pending any more (it was
    handled from another menu, or the rejection prompt has no review
    attached) tells the moderator so and does nothing else: the pending
    set, the file and the other conversations stay as they are, and the
    caller's conversation is idle. *)
Theorem stale_review_reference (ADMIN_ID : Z) i w :
  pending_reviews (bot_data w) !! i = None →
  (∀ callback k,
     only_notice k (callback_answer (Some txt_already_processed)) w
       (approve_review i callback k w).2)
  ∧ (∀ callback k,
       only_notice k (callback_answer (Some txt_already_handled)) w
         (reject_final_noreason i callback k w).2)
  ∧ (∀ message k,
       review_id_to_reject (context_of k w) = Some i
       ∨ review_id_to_reject (context_of k w) = None →
       only_notice k
         (message_answer (chat_id (message_chat message))
            txt_was_processed None)
         w (process_rejection_reason ADMIN_ID message k w).2).
Proof.
  intros Hi. split; [|split].
  - intros callback k. by apply approve_review_stale.
  - intros callback k. by apply reject_final_noreason_stale.
  - intros message k Hk. apply process_rejection_reason_stale.
    intros j Hj. destruct Hk as [Hk|Hk]; rewrite Hk in Hj; congruence.
Qed.

Lemma stale_review_reference_witness :
  let w := Examples.initial in
  let k := Examples.key_of Examples.admin in
  let callback := Examples.button Examples.admin (approve_ 5) in
  pending_reviews (bot_data w) !! 5%Z = None
  ∧ only_notice k (callback_answer (Some txt_already_processed)) w
      (approve_review 5 callback k w).2.
Proof.
  split; [reflexivity|].
  apply (stale_review_reference Examples.ADMIN 5 Examples.initial).
  reflexivity.
Defined.

(** ** The file follows the memory *)

Lemma reads_only_synced {A} (m : M A) w :
  reads_only m → synced w → synced (m w).2.
Proof.
  intros [Hd Hf] Hs. unfold synced. by rewrite (Hd w), (Hf w).
Qed.

Lemma reads_only_keeps {A} (m : M A) : reads_only m → keeps_synced m.
Proof.
  intros Hm w Hs. unfold ok_synced. destruct (m w).1 eqn:E; [|done].
  by apply reads_only_synced.
Qed.

Lemma saves_keeps {A} (m : M A) : saves m → keeps_synced m.
Proof. intros Hm w _. apply Hm. Qed.

Lemma saves_save_data : saves save_data.
Proof. intros w. reflexivity. Qed.

Lemma saves_bind {A B} (m : M A) (k : A → M B) :
  (∀ a, saves (k a)) → saves (bind m k).
Proof.
  intros Hk w. unfold bind. destruct (m w) as [[a|e] w']; [apply Hk|done].
Qed.

Lemma saves_then {A B} (m : M A) (k : A → M B) :
  saves m → (∀ a, reads_only (k a)) → saves (bind m k).
Proof.
  intros Hm Hk w. specialize (Hm w). unfold bind, ok_synced in *.
  destruct (m w) as [[a|e] w']; simpl in *; [|done].
  destruct (k a w').1 eqn:E; [|done]. by apply reads_only_synced.
Qed.

Lemma keeps_bind {A B} (m : M A) (k : A → M B) :
  keeps_synced m → (∀ a, keeps_synced (k a)) → keeps_synced (bind m k).
Proof.
  intros Hm Hk w Hs. specialize (Hm w Hs). unfold bind, ok_synced in *.
  destruct (m w) as [[a|e] w']; simpl in *; [|done].
  by apply Hk.
Qed.

(** Finds the [save_data] that the computation ends with, up to requests
    and reads after it. *)
Ltac prove_saves :=
  cbv zeta;
  lazymatch goal with
  | |- saves save_data => apply saves_save_data
  | |- saves (bind save_data _) =>
      apply saves_then; [apply saves_save_data | intros ?; split; frame]
  | |- saves (bind _ _) => apply saves_bind; intros ?; prove_saves
  | |- saves (if ?b then _ else _) => destruct b; prove_saves
  | |- saves (match ?x with _ => _ end) => destruct x; prove_saves
  end.

Ltac prove_reads_only := split; frame.

Section Synced.
Variable ADMIN_ID : Z.
Variables CommandStart Command_admin : Message → bool.
Set Default Proof Using "Type".

Lemma synced_with_storage s w : synced w → synced (with_storage s w).
Proof. done. Qed.

Lemma process_review_keeps message k :
  keeps_synced (process_review ADMIN_ID message k).
Proof.
  unfold process_review.
  destruct (submitted_text message) as [[|c body]|].
  - apply reads_only_keeps. prove_reads_only.
  - destruct (negb _).
    + apply reads_only_keeps. prove_reads_only.
    + apply saves_keeps. unfold cmd_start. prove_saves.
  - apply reads_only_keeps. prove_reads_only.
Qed.

Lemma approve_review_keeps i callback k :
  keeps_synced (approve_review i callback k).
Proof.
  intros w Hs. unfold approve_review, state_clear. exec. simpl.
  destruct (pending_reviews (bot_data w) !! i) as [r|] eqn:Hi.
  - match goal with |- ok_synced (?m ?w0) =>
      assert (saves m) as Hm; [|apply Hm] end.
    unfold show_pending_reviews. prove_saves.
  - rewrite (pop_missing i _ Hi).
    match goal with |- ok_synced (?m ?w0) =>
      assert (reads_only m) as Hm by prove_reads_only;
      apply (reads_only_keeps m Hm w0) end.
    exact Hs.
Qed.

Lemma reject_final_noreason_keeps i callback k :
  keeps_synced (reject_final_noreason i callback k).
Proof.
  intros w Hs. unfold reject_final_noreason, state_clear. exec. simpl.
  destruct (pending_reviews (bot_data w) !! i) as [r|] eqn:Hi.
  - match goal with |- ok_synced (?m ?w0) =>
      assert (saves m) as Hm; [|apply Hm] end.
    unfold show_pending_reviews. prove_saves.
  - rewrite (pop_missing i _ Hi).
    match goal with |- ok_synced (?m ?w0) =>
      assert (reads_only m) as Hm by prove_reads_only;
      apply (reads_only_keeps m Hm w0) end.
    exact Hs.
Qed.

Lemma process_rejection_reason_keeps message k :
  keeps_synced (process_rejection_reason ADMIN_ID message k).
Proof.
  intros w Hs. unfold process_rejection_reason, state_clear. exec.
  cbv zeta.
  destruct (review_id_to_reject (context_of k w)) as [i|]; exec; simpl.
  - destruct (pending_reviews (bot_data w) !! i) as [r|] eqn:Hi.
    + match goal with |- ok_synced (?m ?w0) =>
        assert (saves m) as Hm; [|apply Hm] end.
      unfold cmd_admin. prove_saves.
    + rewrite (pop_missing i _ Hi).
      match goal with |- ok_synced (?m ?w0) =>
        assert (reads_only m) as Hm by prove_reads_only;
        apply (reads_only_keeps m Hm w0) end.
      exact Hs.
  - match goal with |- ok_synced (?m ?w0) =>
      assert (reads_only m) as Hm by prove_reads_only;
      apply (reads_only_keeps m Hm w0) end.
    exact Hs.
Qed.

Lemma set_main_group_keeps g callback :
  keeps_synced (set_main_group g callback).
Proof.
  intros w Hs. unfold set_main_group. rewrite run_get_bot_data.
  case_bool_decide.
  - match goal with |- ok_synced (?m ?w0) =>
      assert (reads_only m) as Hm by prove_reads_only;
      apply (reads_only_keeps m Hm w0) end.
    exact Hs.
  - match goal with |- ok_synced (?m ?w0) =>
      assert (saves m) as Hm; [|apply Hm] end.
    unfold show_my_groups. prove_saves.
Qed.

Lemma route_message_keeps message :
  keeps_synced (route_message ADMIN_ID CommandStart Command_admin message).
Proof.
  unfold route_message. cbv zeta.
  destruct (CommandStart message).
  { apply reads_only_keeps. unfold cmd_start. prove_reads_only. }
  destruct (Command_admin message).
  { apply reads_only_keeps. unfold cmd_admin. prove_reads_only. }
  apply keeps_bind; [apply reads_only_keeps; prove_reads_only|].
  intros ctx. destruct (cur_state ctx) as [[|]|].
  - destruct (_ || _); [apply process_review_keeps|].
    apply reads_only_keeps. prove_reads_only.
  - destruct (truthy_str _); [apply process_rejection_reason_keeps|].
    apply reads_only_keeps. prove_reads_only.
  - apply reads_only_keeps. prove_reads_only.
Qed.

Lemma route_callback_keeps callback :
  keeps_synced (route_callback ADMIN_ID callback).
Proof.
  destruct (read_only_payload (cb_data callback)) eqn:Hc.
  { apply reads_only_keeps.
    by apply (route_callback_keeps_document ADMIN_ID). }
  unfold route_callback.
  destruct (cb_data callback); try discriminate Hc.
  - apply approve_review_keeps.
  - apply reject_final_noreason_keeps.
  - apply set_main_group_keeps.
  - apply saves_keeps.
    unfold set_timeout, admin_restrictions_menu. prove_saves.
  - apply saves_keeps.
    unfold final_lock_unlock, admin_restrictions_menu. prove_saves.
  - apply saves_keeps.
    unfold final_lock_unlock, admin_restrictions_menu. prove_saves.
Qed.

Lemma on_chat_member_updated_keeps update :
  keeps_synced (on_chat_member_updated ADMIN_ID update).
Proof.
  unfold on_chat_member_updated.
  destruct (negb _).
  - apply reads_only_keeps. prove_reads_only.
  - apply saves_keeps. prove_saves.
Qed.

End Synced.

(** Whenever a handler runs to its end from a world in which
    [bot_data.json] holds what is in memory, the file holds what is in
    memory afterwards as well: every change that a completed handler makes
    to the document is on disk. *)
Theorem completed_handler_is_saved (ADMIN_ID : Z)
    (CommandStart Command_admin : Message → bool) u w :
  synced w →
  (dispatch ADMIN_ID CommandStart Command_admin u w).1 = Ok tt →
  synced (dispatch ADMIN_ID CommandStart Command_admin u w).2.
Proof.
  intros Hs Hok.
  assert (keeps_synced (dispatch ADMIN_ID CommandStart Command_admin u)) as Hk.
  { destruct u; simpl.
    - apply route_message_keeps.
    - apply route_callback_keeps.
    - apply on_chat_member_updated_keeps. }
  specialize (Hk w Hs). unfold ok_synced in Hk. by rewrite Hok in Hk.
Qed.

Lemma completed_handler_is_saved_witness :
  let w := deliver
             (Examples.at_ 120
                (on_callback_query
                   (Examples.button Examples.admin final_lock)))
             (Examples.after
                (take 2 Examples.alice_then_bob)) in
  let u := on_callback_query (Examples.button Examples.admin final_lock) in
  synced w
  ∧ (Examples.handle u w).1 = Ok tt
  ∧ reviews_locked (settings (bot_data (Examples.handle u w).2))
      = true
  ∧ synced (Examples.handle u w).2.
Proof.
  split; [reflexivity|]. split; [reflexivity|]. split; [reflexivity|].
  apply (completed_handler_is_saved Examples.ADMIN).
  - reflexivity.
  - reflexivity.
Defined.

(** ** Forwarding *)

Global Instance sent_only_preorder ok : PreOrder (sent_only ok).
Proof.
  split.
  - intros w. exists []. by rewrite app_nil_r.
  - intros a b c (m1 & H1 & F1) (m2 & H2 & F2). exists (m1 ++ m2).
    split; [by rewrite H2, H1, app_assoc|].
    by rewrite forallb_app, F1, F2.
Qed.

Global Instance sent_only_doc_blind ok : DocBlind (sent_only ok).
Proof. intros w d f. exists []. simpl. by rewrite app_nil_r. Qed.

Global Instance sent_only_store_blind ok : StoreBlind (sent_only ok).
Proof. intros w s. exists []. simpl. by rewrite app_nil_r. Qed.

Lemma sent_only_request ok c : ok c = true → stable (sent_only ok) (request c).
Proof.
  intros Hc w. exists [c]. unfold request.
  destruct (replies w) as [|[v|e] rest]; simpl; by rewrite Hc.
Qed.

Lemma sent_only_api ok c : ok c = true → stable (sent_only ok) (api c).
Proof.
  intros Hc. unfold api.
  apply stable_bind; [apply _|by apply sent_only_request|].
  intros _. apply stable_ret. apply _.
Qed.

Lemma sent_only_answer ok message body kb :
  ok (message_answer (chat_id (message_chat message)) body kb) = true →
  stable (sent_only ok) (answer message body kb).
Proof. apply sent_only_api. Qed.

#[export] Hint Extern 2 (stable (sent_only _) (api _)) =>
  apply sent_only_api; reflexivity : frame.
#[export] Hint Extern 2 (stable (sent_only _) (request _)) =>
  apply sent_only_request; reflexivity : frame.
#[export] Hint Extern 2 (stable (sent_only _) (answer _ _ _)) =>
  apply sent_only_answer; reflexivity : frame.

Section Forwarding.
Variable ADMIN_ID : Z.
Variables CommandStart Command_admin : Message → bool.
Set Default Proof Using "Type".

Lemma dispatch_no_forward u :
  (∀ callback i, u = on_callback_query callback →
                 cb_data callback ≠ approve_ i) →
  stable (sent_only no_forward)
      (dispatch ADMIN_ID CommandStart Command_admin u).
Proof.
  intros Hu. destruct u as [message|callback|upd]; simpl.
  - unfold_handlers. frame.
  - unfold_handlers. specialize (Hu callback).
    destruct (cb_data callback);
      try (by destruct (Hu review_id eq_refl)); frame.
  - unfold on_chat_member_updated. frame.
Qed.

Lemma approve_review_no_target_requests i r callback k w :
  pending_reviews (bot_data w) !! i = Some r →
  truthy_int (main_group_id (bot_data w)) = false →
  sent_only no_forward w (approve_review i callback k w).2.
Proof.
  intros Hr Hg. unfold approve_review, state_clear. exec. simpl.
  rewrite Hr. exec. simpl. rewrite Hg. cbn [negb].
  match goal with |- sent_only _ _ (?m ?w0).2 =>
    assert (stable (sent_only no_forward) m) as Hm
      by (unfold show_pending_reviews; frame);
    destruct (Hm w0) as (more & Ho & Hf)
  end.
  exists more. split; [exact Ho | exact Hf].
Qed.

End Forwarding.

Section ForwardingOnApproval.

Local Arguments show_pending_reviews : simpl never.
Local Arguments truthy_int : simpl never.

Lemma show_pending_reviews_no_forward callback k w base first pre :
  outbox w = base ++ first :: pre →
  forallb no_forward pre = true →
  ∃ more,
    outbox (show_pending_reviews callback k w).2 = base ++ first :: more
    ∧ forallb no_forward more = true.
Proof.
  intros Ho Hp.
  assert (stable (sent_only no_forward) (show_pending_reviews callback k))
    as Hm by (unfold show_pending_reviews; frame).
  destruct (Hm w) as (more & Hmore & Hf).
  exists (pre ++ more). split.
  - rewrite Hmore, Ho. by rewrite <- app_assoc.
  - by rewrite forallb_app, Hp, Hf.
Qed.

Lemma approve_review_forwards_first i r g callback k w :
  pending_reviews (bot_data w) !! i = Some r →
  main_group_id (bot_data w) = Some g →
  g ≠ 0%Z →
  ∃ more,
    outbox (approve_review i callback k w).2 =
      outbox w ++ forward_message g (r_user_id r) i :: more
    ∧ forallb no_forward more = true.
Proof.
  intros Hr Hg Hg0.
  assert (truthy_int (main_group_id (bot_data w)) = true) as Ht.
  { rewrite Hg. unfold truthy_int. by apply negb_true_iff, Z.eqb_neq. }
  unfold approve_review, state_clear, pending_pop, api, try_except, bind,
    get_bot_data, modify_bot_data, modify_storage, save_data, request, ret.
  cbv beta. simpl. rewrite Hr; simpl; rewrite Ht; simpl; rewrite Hg; simpl.
  destruct (replies w) as [|[v1|e1] [|[v2|e2] [|[v3|e3] [|[v4|e4] rest]]]];
    simpl;
    first
      [ eapply show_pending_reviews_no_forward; simpl;
        [ rewrite <- ?app_assoc; reflexivity | reflexivity ]
      | eexists; split;
        [ simpl; rewrite <- ?app_assoc; reflexivity | reflexivity ] ].
Qed.

End ForwardingOnApproval.

(** A message is forwarded by the approval of a review and by nothing
    else.  An approval with a publish target [g] forwards first of all, the
    message [i] from the chat of its submitter to [g], and forwards nothing
    after that; an approval without publish target forwards nothing. *)
Theorem forwarding_only_on_approval (ADMIN_ID : Z)
    (CommandStart Command_admin : Message → bool) :
  (∀ u w,
     (∀ callback i, u = on_callback_query callback →
                    cb_data callback ≠ approve_ i) →
     sent_only no_forward w
         (dispatch ADMIN_ID CommandStart Command_admin u w).2)
  ∧ (∀ i r callback k w,
       pending_reviews (bot_data w) !! i = Some r →
       main_group_id (bot_data w) = None
       ∨ main_group_id (bot_data w) = Some 0%Z →
       sent_only no_forward w (approve_review i callback k w).2)
  ∧ (∀ i r g callback k w,
       pending_reviews (bot_data w) !! i = Some r →
       main_group_id (bot_data w) = Some g → g ≠ 0%Z →
       ∃ more,
         outbox (approve_review i callback k w).2 =
           outbox w ++ forward_message g (r_user_id r) i :: more
         ∧ forallb no_forward more = true).
Proof.
  split; [|split].
  - intros u w Hu. by apply
      (dispatch_no_forward ADMIN_ID CommandStart Command_admin u Hu w).
  - intros i r callback k w Hr Hg.
    apply (approve_review_no_target_requests i r callback k w Hr).
    by destruct Hg as [-> | ->].
  - intros i r g callback k w. apply approve_review_forwards_first.
Qed.

(** ** Rejection with a reason, from the prompt to the removal *)

Lemma delete_twice (k : Key) (s : gmap Key Context) :
  delete k (delete k s) = delete k s.
Proof.
  apply map_eq. intros j. destruct (decide (k = j)) as [->|Hne].
  - by rewrite !lookup_delete_eq.
  - by rewrite !lookup_delete_ne.
Qed.

Lemma cleared_stays_cleared {A} k (rest : M A) w s :
  stable (cleared_or_same k) rest →
  storage w = delete k s →
  storage (rest w).2 = delete k s.
Proof.
  intros Hrest Hw. destruct (Hrest w) as [->| ->]; [done|].
  by rewrite Hw, delete_twice.
Qed.

Lemma suppress_api_first c (tail : M unit) w :
  stable sent_more tail →
  ∃ more,
    outbox ((suppress_TelegramBadRequest (api c) ;; tail) w).2 =
    outbox w ++ c :: more.
Proof.
  intros Htail.
  assert (∀ w1, outbox w1 = outbox w ++ [c] →
            ∃ more, outbox (tail w1).2 = outbox w ++ c :: more) as Hrun.
  { intros w1 Hw1. destruct (Htail w1) as [more Hmore]. exists more.
    by rewrite Hmore, Hw1, <- app_assoc. }
  unfold api, suppress_TelegramBadRequest, bind, request, ret. cbv beta.
  destruct (replies w) as [|[v|[|]] rest]; simpl;
    first [ by apply Hrun | by exists [] ].
Qed.

Section ReasonFlow.
Variable ADMIN_ID : Z.

Lemma reject_final_reason_prompt_effect i callback k w :
  let w' := (reject_final_reason_prompt i callback k w).2 in
  bot_data w' = bot_data w
  ∧ context_of k w' =
      {| cur_state := Some waiting_for_rejection_reason;
         review_id_to_reject := Some i |}.
Proof.
  cbv zeta. split.
  - assert (stable (same bot_data) (reject_final_reason_prompt i callback k))
      as H by (unfold reject_final_reason_prompt; frame).
    apply H.
  - unfold reject_final_reason_prompt, state_set_state, state_update_data.
    exec. unfold context_of.
    match goal with |- context [(api ?c ?w0).2] =>
      assert (storage (api c w0).2 = storage w0) as ->
        by (apply (stable_api (same storage)))
    end.
    simpl. by rewrite lookup_insert_eq, lookup_insert_eq.
Qed.

Lemma process_rejection_reason_resets message k w :
  storage (process_rejection_reason ADMIN_ID message k w).2 =
  delete k (storage w).
Proof.
  unfold process_rejection_reason, state_clear. exec. cbv zeta.
  destruct (review_id_to_reject (context_of k w)) as [i|]; exec;
    (apply cleared_stays_cleared; [|done]);
    unfold cmd_admin, cmd_start; frame.
Qed.

Lemma process_rejection_reason_notifies i r message k w :
  pending_reviews (bot_data w) !! i = Some r →
  review_id_to_reject (context_of k w) = Some i →
  ∃ more,
    outbox (process_rejection_reason ADMIN_ID message k w).2 =
      outbox w ++
        send_message (r_user_id r) (txt_rejected_because (text message))
        :: more.
Proof.
  intros Hr Hk. unfold process_rejection_reason, state_clear. exec.
  cbv zeta. rewrite Hk. exec. simpl. rewrite Hr.
  match goal with |- context [bind (suppress_TelegramBadRequest (api ?c)) ?t ?w0] =>
    destruct (suppress_api_first c (t tt) w0) as [more Hmore]
  end.
  { unfold cmd_admin, cmd_start. frame. }
  exists more. exact Hmore.
Qed.

End ReasonFlow.

(** The rejection with a reason, end to end.  The moderator presses
    "give a reason" for a pending review and then sends a text that is not
    a command, in the same chat: the review is removed from the pending
    set, the text goes to the submitter as the reason (first request of the
    second step), and the moderator's conversation is idle again, whatever
    the platform answers to any request of the two steps. *)
Theorem reject_with_reason_flow (ADMIN_ID : Z)
    (CommandStart Command_admin : Message → bool) w i r callback message
    (press reason : Delivery) :
  pending_reviews (bot_data w) !! i = Some r →
  update_of press = on_callback_query callback →
  cb_data callback = reject_final_reason_ i →
  update_of reason = on_message message →
  message_key message = callback_key callback →
  truthy_str (text message) = true →
  CommandStart message = false →
  Command_admin message = false →
  let w1 := step ADMIN_ID CommandStart Command_admin w press in
  let w2 := step ADMIN_ID CommandStart Command_admin w1 reason in
  pending_reviews (bot_data w2) = delete i (pending_reviews (bot_data w))
  ∧ context_of (message_key message) w2 = idle
  ∧ ∃ more,
      outbox w2 =
        outbox w1 ++
          send_message (r_user_id r) (txt_rejected_because (text message))
          :: more.
Proof.
  intros Hr Hpress Hdata Hreason Hkey Htext Hstart Hadmin w1 w2.
  set (k := callback_key callback) in *.
  assert (bot_data w1 = bot_data w
          ∧ context_of k w1 =
              {| cur_state := Some waiting_for_rejection_reason;
                 review_id_to_reject := Some i |}) as [Hd1 Hc1].
  { subst w1. unfold step. rewrite Hpress. simpl.
    unfold route_callback. rewrite Hdata.
    apply (reject_final_reason_prompt_effect i callback k (deliver press w)). }
  set (w1' := deliver reason w1).
  assert (pending_reviews (bot_data w1') !! i = Some r) as Hr1
    by (subst w1'; simpl; by rewrite Hd1).
  assert (context_of k w1' =
            {| cur_state := Some waiting_for_rejection_reason;
               review_id_to_reject := Some i |}) as Hc1'
    by exact Hc1.
  assert (w2 = (process_rejection_reason ADMIN_ID message k w1').2) as ->.
  { subst w2. unfold step. rewrite Hreason. simpl. fold w1'.
    unfold route_message. rewrite Hstart, Hadmin. cbv zeta.
    rewrite run_state_get_data, Hkey. fold k. rewrite Hc1'. simpl.
    by rewrite Htext. }
  split; [|split].
  - rewrite (process_rejection_reason_pending ADMIN_ID i r message k w1' Hr1)
      by (by rewrite Hc1').
    subst w1'. simpl. by rewrite Hd1.
  - rewrite Hkey. fold k. eapply context_of_cleared.
    apply process_rejection_reason_resets.
  - destruct (process_rejection_reason_notifies ADMIN_ID i r message k w1' Hr1)
      as [more Hmore]; [by rewrite Hc1'|].
    exists more. exact Hmore.
Qed.

Lemma reject_with_reason_flow_witness :
  let w := Examples.after
             (take 2 Examples.reject_then_groups) in
  let callback := Examples.button Examples.admin (reject_final_reason_ 5) in
  let message := Examples.text_message 6 Examples.admin "Not a review" in
  let press := Examples.at_ 120 (on_callback_query callback) in
  let reason := Examples.at_ 130 (on_message message) in
  let w2 := Examples.next (Examples.next w press) reason in
  pending_reviews (bot_data w) !! 5%Z = Some Examples.alice_review
  ∧ pending_reviews (bot_data w2) = delete 5%Z (pending_reviews (bot_data w))
  ∧ context_of (message_key message) w2 = idle.
Proof.
  split; [reflexivity|].
  destruct (reject_with_reason_flow Examples.ADMIN Examples.CommandStart
           Examples.Command_admin
              (Examples.after
                 (take 2 Examples.reject_then_groups))
              5 Examples.alice_review
              (Examples.button Examples.admin (reject_final_reason_ 5))
              (Examples.text_message 6 Examples.admin "Not a review")
              (Examples.at_ 120
                 (on_callback_query
                    (Examples.button Examples.admin (reject_final_reason_ 5))))
              (Examples.at_ 130
                 (on_message
                    (Examples.text_message 6 Examples.admin "Not a review"))))
    as (Hp & Hc & _); try reflexivity.
  split; [exact Hp | exact Hc].
Defined.

(** ** The moderation list *)

Lemma pending_rows_spec (p : gmap Z Review) i :
  [press (review_ i)]
    ∈ ((λ kv : Z * Review, [press (review_ kv.1)]) <$> map_to_list p)
        ++ [[press admin_panel]]
  ↔ is_Some (p !! i).
Proof.
  rewrite elem_of_app, list_elem_of_fmap, list_elem_of_singleton. split.
  - intros [([j r] & Heq & Hin)|Heq]; [|discriminate Heq].
    injection Heq as ->. apply elem_of_map_to_list in Hin. by exists r.
  - intros [r Hr]. left. exists (i, r). split; [done|].
    by apply elem_of_map_to_list.
Qed.

(** The moderation list, opened from a text message: with reviews pending
    there is one request, the list, with one row per pending review and a
    last row back to the panel, and the row of a review carries its id, so
    every pending review can be opened and no other; with nothing pending
    the first request is the "nothing to moderate" alert. *)
Theorem show_pending_reviews_lists callback k w :
  photo (cb_message callback) = [] →
  let w' := (show_pending_reviews callback k w).2 in
  let p := pending_reviews (bot_data w) in
  (p ≠ ∅ →
     ∃ rows,
       outbox w' =
         outbox w ++ [message_edit_text txt_pending_title (Some rows)]
       ∧ length rows = S (size p)
       ∧ last rows = Some [press admin_panel]
       ∧ ∀ i, [press (review_ i)] ∈ rows ↔ is_Some (p !! i))
  ∧ (p = ∅ →
       ∃ more,
         outbox w' =
           outbox w ++ callback_answer (Some txt_nothing_pending) :: more).
Proof.
  intros Hphoto w' p. subst w'.
  unfold show_pending_reviews, state_clear. exec. rewrite Hphoto.
  cbn [truthy_list]. exec. simpl. fold p. unfold truthy_dict. split.
  - intros Hp.
    destruct (map_to_list p) as [|kv l] eqn:Hl.
    { by apply map_to_list_empty_iff in Hl. }
    cbn [truthy_list negb]. rewrite <- Hl.
    eexists. split; [|split; [|split]].
    + match goal with |- context [(api ?c ?w0).2] =>
        destruct (api_only c w0) as (_ & _ & _ & Ho) end.
      exact Ho.
    + rewrite length_app, length_fmap, length_map_to_list. simpl. lia.
    + by rewrite last_snoc.
    + apply pending_rows_spec.
  - intros Hp. rewrite Hp, map_to_list_empty. cbn [truthy_list negb].
    unfold api, bind, request, ret. cbv beta. simpl.
    destruct (replies w) as [|[v|e] [|[v'|e'] rest]]; simpl;
      eexists; rewrite <- ?app_assoc; reflexivity.
Qed.

Lemma show_pending_reviews_lists_witness :
  let w := Examples.after
             (take 2 Examples.reject_then_groups) in
  let callback := Examples.button Examples.admin admin_moderate_reviews in
  let w' := (show_pending_reviews callback
               (Examples.key_of Examples.admin) w).2 in
  photo (cb_message callback) = []
  ∧ pending_reviews (bot_data w) ≠ ∅
  ∧ ∃ rows,
      outbox w' =
        outbox w ++ [message_edit_text txt_pending_title (Some rows)]
      ∧ length rows = 2%nat.
Proof.
  assert (pending_reviews
            (bot_data
               (Examples.after
                  (take 2 Examples.reject_then_groups))) ≠ ∅) as Hne.
  { intros H.
    assert (pending_reviews
              (bot_data
                 (Examples.after
                    (take 2 Examples.reject_then_groups))) !! 5%Z
            = Some Examples.alice_review) as H5 by reflexivity.
    rewrite H in H5. discriminate H5. }
  split; [reflexivity|]. split; [exact Hne|].
  destruct (show_pending_reviews_lists
              (Examples.button Examples.admin admin_moderate_reviews)
              (Examples.key_of Examples.admin)
              (Examples.after
                 (take 2 Examples.reject_then_groups)) eq_refl)
    as [Hrows _].
  destruct (Hrows Hne) as (rows & Ho & Hlen & _).
  exists rows. split; [exact Ho|]. rewrite Hlen. reflexivity.
Defined.

(** ** An accepted submission *)

Lemma api_first c (tail : M unit) w :
  stable sent_more tail →
  ∃ more, outbox ((api c ;; tail) w).2 = outbox w ++ c :: more.
Proof.
  intros Htail.
  assert (∀ w1, outbox w1 = outbox w ++ [c] →
            ∃ more, outbox (tail w1).2 = outbox w ++ c :: more) as Hrun.
  { intros w1 Hw1. destruct (Htail w1) as [more Hmore]. exists more.
    by rewrite Hmore, Hw1, <- app_assoc. }
  unfold api, bind, request, ret. cbv beta.
  destruct (replies w) as [|[v|e] rest]; simpl;
    first [ by apply Hrun | by exists [] ].
Qed.

(** An accepted submission stamps the cooldown entry of its sender with
    the clock, leaves the other entries, the registry, the publish target
    and the settings alone, ends the dialogue, and asks first of all for
    the notice to the administrator; when every request goes through, the
    sender then gets the thanks and the main menu. *)
Theorem process_review_accepted_effects (ADMIN_ID : Z) message k w body :
  (photo message = [] ∧ text message = Some body)
  ∨ (photo message ≠ [] ∧ caption message = Some body) →
  (10 ≤ length body ≤ 50)%nat →
  let w' := (process_review ADMIN_ID message k w).2 in
  let uid := user_id (from_user message) in
  let notice :=
    send_message ADMIN_ID
      (txt_new_review (user_username (from_user message))) in
  user_last_review_time (bot_data w') =
    <[str uid := clock w]> (user_last_review_time (bot_data w))
  ∧ groups (bot_data w') = groups (bot_data w)
  ∧ main_group_id (bot_data w') = main_group_id (bot_data w)
  ∧ settings (bot_data w') = settings (bot_data w)
  ∧ context_of k w' = idle
  ∧ (∃ more, outbox w' = outbox w ++ notice :: more)
  ∧ (replies w = [] →
       outbox w' =
         outbox w ++
           [ notice;
             message_answer (chat_id (message_chat message)) txt_thanks None;
             message_answer (chat_id (message_chat message)) txt_greeting
               (Some get_main_menu_keyboard) ]).
Proof.
  intros Hbody Hlen w' uid notice. subst w' uid notice.
  apply submitted_text_spec in Hbody as Htext.
  destruct (process_review_accepted ADMIN_ID message k w body Htext Hlen)
    as (Hd & _ & Hs).
  rewrite Hd. simpl.
  split; [done|]. split; [done|]. split; [done|]. split; [done|].
  split; [by eapply context_of_cleared|].
  unfold process_review. rewrite Htext.
  destruct body as [|c body]; [simpl in Hlen; lia|].
  rewrite (length_check_true (c :: body) Hlen). cbv zeta.
  unfold state_clear. exec. split.
  - match goal with |- context [bind (api ?c0) ?t ?w0] =>
      destruct (api_first c0 (t tt) w0) as [more Hmore]
    end.
    { unfold answer, cmd_start, state_clear. frame. }
    exists more. exact Hmore.
  - intros Hrep.
    unfold answer, cmd_start, state_clear, api, modify_storage, bind,
      request, ret.
    cbv beta. simpl. rewrite Hrep. simpl. by rewrite <- !app_assoc.
Qed.

Lemma process_review_accepted_effects_witness :
  let message :=
    Examples.text_message 5 Examples.alice "Great service, loved it!" in
  let k := Examples.key_of Examples.alice in
  let w := deliver (Examples.at_ 110 (on_message message))
             Examples.initial in
  let w' := (process_review Examples.ADMIN message k w).2 in
  text message = Some (Examples.code_points "Great service, loved it!")
  ∧ user_last_review_time (bot_data w') !! str 41 = Some (Examples.seconds 110)
  ∧ outbox w' =
      [ send_message Examples.ADMIN
          (txt_new_review (Some (Examples.code_points "alice")));
        message_answer 41 txt_thanks None;
        message_answer 41 txt_greeting (Some get_main_menu_keyboard) ].
Proof.
  split; [reflexivity|].
  destruct (process_review_accepted_effects Examples.ADMIN
              (Examples.text_message 5 Examples.alice
                 "Great service, loved it!")
              (Examples.key_of Examples.alice)
              (deliver
                 (Examples.at_ 110
                    (on_message
                       (Examples.text_message 5 Examples.alice
                          "Great service, loved it!")))
                 Examples.initial)
              (Examples.code_points "Great service, loved it!"))
    as (Hstamp & _ & _ & _ & _ & _ & Hout).
  - left. split; reflexivity.
  - vm_compute. lia.
  - split.
    + rewrite Hstamp. reflexivity.
    + apply Hout. reflexivity.
Defined.

(** ** A submission, from the button to the record *)

Section SubmissionFlow.
Variable ADMIN_ID : Z.

Lemma start_review_opens callback k w :
  reviews_locked (settings (bot_data w)) = false →
  review_timeout_seconds (settings (bot_data w)) = 0%Z →
  next_returns (replies w) →
  let w' := (start_review ADMIN_ID callback k w).2 in
  bot_data w' = bot_data w
  ∧ cur_state (context_of k w') = Some waiting_for_review.
Proof.
  intros Hl Hc Hnext. cbv zeta. split.
  - assert (stable (same bot_data) (start_review ADMIN_ID callback k)) as H
      by (unfold start_review; frame).
    apply H.
  - unfold start_review. cbv zeta. exec. rewrite Hl. exec. rewrite Hc.
    rewrite andb_false_r. cbn [andb].
    unfold api, state_set_state, modify_storage, bind, request, ret.
    cbv beta.
    destruct (replies w) as [|[v|e] rest]; simpl; try done;
      unfold context_of; simpl; by rewrite lookup_insert_eq.
Qed.

End SubmissionFlow.

(** The submission, end to end.  With the lock off and the cooldown
    disabled, a user presses "leave a review", the prompt is delivered, and
    the user sends a text of 10 to 50 characters that is not a command, in
    the same chat: the review is pending under the id of that message, the
    cooldown entry of the user holds the time of the text, and the
    dialogue is over. *)
Theorem submission_flow (ADMIN_ID : Z)
    (CommandStart Command_admin : Message → bool) w callback message body
    (press sent : Delivery) :
  reviews_locked (settings (bot_data w)) = false →
  review_timeout_seconds (settings (bot_data w)) = 0%Z →
  update_of press = on_callback_query callback →
  cb_data callback = leave_review →
  next_returns (outcomes press) →
  update_of sent = on_message message →
  message_key message = callback_key callback →
  photo message = [] →
  text message = Some body →
  (10 ≤ length body ≤ 50)%nat →
  CommandStart message = false →
  Command_admin message = false →
  let w2 :=
    step ADMIN_ID CommandStart Command_admin
      (step ADMIN_ID CommandStart Command_admin w press) sent in
  pending_reviews (bot_data w2) =
    <[message_id message :=
        {| r_user_id := user_id (from_user message);
           r_username := user_username (from_user message);
           r_first_name := user_first_name (from_user message);
           r_text := body;
           r_photo_file_id := None |}]>
      (pending_reviews (bot_data w))
  ∧ user_last_review_time (bot_data w2)
      !! str (user_id (from_user message)) = Some (at_time sent)
  ∧ context_of (message_key message) w2 = idle.
Proof.
  intros Hl Hc Hpress Hdata Hnext Hsent Hkey Hphoto Htext Hlen Hstart Hadmin.
  cbv zeta. set (k := callback_key callback) in *.
  set (w1 := step ADMIN_ID CommandStart Command_admin w press).
  assert (bot_data w1 = bot_data w
          ∧ cur_state (context_of k w1) = Some waiting_for_review)
    as [Hd1 Hc1].
  { subst w1. unfold step. rewrite Hpress. simpl.
    unfold route_callback. rewrite Hdata.
    by apply (start_review_opens ADMIN_ID callback k (deliver press w)). }
  set (w1' := deliver sent w1).
  assert (submitted_text message = Some body) as Hsub.
  { unfold submitted_text. by rewrite Hphoto. }
  assert (step ADMIN_ID CommandStart Command_admin w1 sent
      = (process_review ADMIN_ID message k w1').2)
    as ->.
  { unfold step. rewrite Hsent. simpl. fold w1'.
    unfold route_message. rewrite Hstart, Hadmin. cbv zeta.
    rewrite run_state_get_data, Hkey. fold k.
    assert (context_of k w1' = context_of k w1) as -> by done.
    rewrite Hc1. rewrite Htext.
    destruct body as [|c body]; [simpl in Hlen; lia|]. done. }
  destruct (process_review_accepted ADMIN_ID message k w1' body Hsub Hlen)
    as (Hd & _ & Hs).
  rewrite Hd. simpl. rewrite Hd1. split; [|split].
  - unfold review_of. by rewrite Hphoto.
  - apply lookup_insert_eq.
  - rewrite Hkey. fold k. by eapply context_of_cleared.
Qed.

Lemma submission_flow_witness :
  let callback := Examples.button Examples.alice leave_review in
  let message :=
    Examples.text_message 5 Examples.alice "Great service, loved it!" in
  let press := Examples.at_ 100 (on_callback_query callback) in
  let sent := Examples.at_ 110 (on_message message) in
  let w2 := Examples.next
              (Examples.next Examples.initial press) sent in
  reviews_locked (settings (bot_data Examples.initial)) = false
  ∧ pending_reviews (bot_data w2) !! 5%Z = Some Examples.alice_review
  ∧ context_of (message_key message) w2 = idle.
Proof.
  split; [reflexivity|].
  destruct (submission_flow Examples.ADMIN Examples.CommandStart
              Examples.Command_admin Examples.initial
              (Examples.button Examples.alice leave_review)
              (Examples.text_message 5 Examples.alice
                 "Great service, loved it!")
              (Examples.code_points "Great service, loved it!")
              (Examples.at_ 100
                 (on_callback_query
                    (Examples.button Examples.alice leave_review)))
              (Examples.at_ 110
                 (on_message
                    (Examples.text_message 5 Examples.alice
                       "Great service, loved it!"))))
    as (Hp & _ & Hk); try reflexivity; try exact I.
  - vm_compute. lia.
  - split; [|exact Hk]. unfold Examples.next. rewrite Hp. reflexivity.
Defined.

(** ** A published approval *)

Section Published.

Local Arguments show_pending_reviews : simpl never.
Local Arguments truthy_int : simpl never.




End Published.


